(** * Image provenance validation of the data scrapper

    A shallow embedding of [src/imageSearchService.js] (class
    [ImageSearchService]) and of the image step of [src/cityService.js]
    (class [CityService]), with the properties of the discovery pipeline
    proved over it.

    Conventions of the embedding.
    - A JavaScript string is a [string] of 8-bit characters; [toLowerCase]
      folds the letters A-Z, [length] counts characters and white space is
      the ASCII one, which is what the engine does on ASCII text.  Outside
      ASCII the engine folds, measures and trims differently; a theorem
      whose statement depends on that assumes its texts ASCII ([isAscii]).
    - A JavaScript value that the code inspects dynamically is a [JsVal];
      numbers are the integer-valued ones (the provider's [width] and
      [height] are integers), printed in plain decimal, as the engine
      prints them up to 2^53 ([plain]).
    - Arithmetic is exact.  The engine computes on doubles: its quotient
      of two dimensions falls on the same side of 1.2 and of 2.5 as the
      exact one when both are below 2^49 in absolute value, and its sum
      of six amounts is the exact one when each is at most 2^50.  A
      theorem that depends on that carries the bound.
    - The network is an oracle over an abstract [World]: a search request and
      a HEAD request each return a reply and the next world.  Every
      asynchronous function is a computation [M A] that returns an outcome
      (a value or a raised exception), the next world and the trace of the
      requests it issued.  [console.log] lines are not part of the model. *)

From Stdlib Require Ascii String.
From Stdlib Require Import ZArith QArith List Bool Lia DecimalString.
From stdpp Require Import base option list strings gmap.

Local Open Scope Z_scope.

(* ===================================================================== *)
(** * JavaScript strings *)
(* ===================================================================== *)

Module Js.

Definition lowerChar (c : Ascii.ascii) : Ascii.ascii :=
  let n := Ascii.nat_of_ascii c in
  if Nat.leb 65 n && Nat.leb n 90 then Ascii.ascii_of_nat (n + 32) else c.

(** [s.toLowerCase()], on ASCII text. *)
Fixpoint toLowerCase (s : string) : string :=
  match s with
  | EmptyString => EmptyString
  | String c s' => String (lowerChar c) (toLowerCase s')
  end.

(** [s.startsWith(p)] *)
Definition startsWith (s p : string) : bool := String.prefix p s.

(** [s.includes(sub)] *)
Fixpoint includes (s sub : string) {struct s} : bool :=
  String.prefix sub s
  || match s with
     | EmptyString => false
     | String _ s' => includes s' sub
     end.

(** [s.endsWith(suf)] *)
Fixpoint endsWith (s suf : string) {struct s} : bool :=
  String.eqb s suf
  || match s with
     | EmptyString => false
     | String _ s' => endsWith s' suf
     end.

(** [s.split(sep)] for a one-character separator. *)
Fixpoint split (s : string) (sep : Ascii.ascii) : list string :=
  match s with
  | EmptyString => [EmptyString]
  | String c s' =>
      if Ascii.eqb c sep then EmptyString :: split s' sep
      else match split s' sep with
           | [] => [String c EmptyString]
           | w :: ws => String c w :: ws
           end
  end.

Definition space : Ascii.ascii := Ascii.ascii_of_nat 32.
Definition dquote : string := String (Ascii.ascii_of_nat 34) EmptyString.

(** ** Dynamic values *)

#[local] Unset Elimination Schemes.
Inductive JsVal : Type :=
| JUndefined
| JNull
| JBool (b : bool)
| JNumber (z : Z)
| JString (s : string)
| JArray (elems : list JsVal)
| JObject (fields : list (string * JsVal)).
#[local] Set Elimination Schemes.

(** ToBoolean: what [!v], [v || d] and [if (v)] look at. *)
Definition truthy (v : JsVal) : bool :=
  match v with
  | JUndefined | JNull => false
  | JBool b => b
  | JNumber z => negb (z =? 0)
  | JString s => negb (String.eqb s "")
  | JArray _ | JObject _ => true
  end.

(** [typeof v] *)
Definition typeof (v : JsVal) : string :=
  match v with
  | JUndefined => "undefined"
  | JNull => "object"
  | JBool _ => "boolean"
  | JNumber _ => "number"
  | JString _ => "string"
  | JArray _ | JObject _ => "object"
  end.

(** [a || b] on values. *)
Definition or_else (a b : JsVal) : JsVal := if truthy a then a else b.

Definition join (sep : string) (l : list string) : string :=
  match l with
  | [] => ""
  | x :: xs => fold_left (fun acc y => acc +:+ sep +:+ y) xs x
  end.

(** ToString, as a template literal applies it; a number in plain
    decimal, as the engine prints an integer below 1e21. *)
Fixpoint toText (v : JsVal) : string :=
  match v with
  | JUndefined => "undefined"
  | JNull => "null"
  | JBool true => "true"
  | JBool false => "false"
  | JNumber z => NilZero.string_of_int (Z.to_int z)
  | JString s => s
  | JArray elems =>
      join ","
        ((fix each (l : list JsVal) : list string :=
            match l with
            | [] => []
            | JUndefined :: l' | JNull :: l' => "" :: each l'
            | x :: l' => toText x :: each l'
            end) elems)
  | JObject _ => "[object Object]"
  end.

(** ** parseInt *)

(** The white space of ASCII: TAB, LF, VT, FF, CR and the space. *)
Definition isWhiteSpace (c : Ascii.ascii) : bool :=
  let n := Ascii.nat_of_ascii c in
  (Nat.leb 9 n && Nat.leb n 13) || Nat.eqb n 32.

Fixpoint trimStart (s : string) : string :=
  match s with
  | EmptyString => EmptyString
  | String c s' => if isWhiteSpace c then trimStart s' else s
  end.

Definition digitValue (radix : Z) (c : Ascii.ascii) : option Z :=
  let n := Z.of_nat (Ascii.nat_of_ascii c) in
  let d := if (48 <=? n) && (n <=? 57) then n - 48
           else if (97 <=? n) && (n <=? 122) then n - 87
           else if (65 <=? n) && (n <=? 90) then n - 55
           else radix in
  if d <? radix then Some d else None.

(** The longest prefix of digits, read in the radix; [None] when empty. *)
Fixpoint readDigits (radix : Z) (s : string) (acc : option Z) : option Z :=
  match s with
  | EmptyString => acc
  | String c s' =>
      match digitValue radix c with
      | Some d => readDigits radix s' (Some (radix * default 0 acc + d))
      | None => acc
      end
  end.

Definition parseIntString (s : string) : option Z :=
  let s1 := trimStart s in
  let '(sign, s2) :=
    match s1 with
    | String c r =>
        if Ascii.eqb c (Ascii.ascii_of_nat 45) then (-1, r)
        else if Ascii.eqb c (Ascii.ascii_of_nat 43) then (1, r)
        else (1, s1)
    | EmptyString => (1, s1)
    end in
  let '(radix, s3) :=
    match s2 with
    | String c0 (String c1 r) =>
        if Ascii.eqb c0 (Ascii.ascii_of_nat 48)
           && (Ascii.eqb c1 (Ascii.ascii_of_nat 120)
               || Ascii.eqb c1 (Ascii.ascii_of_nat 88))
        then (16, r) else (10, s2)
    | _ => (10, s2)
    end in
  option_map (Z.mul sign) (readDigits radix s3 None).

(** [parseInt(v)]: [None] is NaN. *)
Definition parseInt (v : JsVal) : option Z := parseIntString (toText v).

End Js.

Import Js.

(* ===================================================================== *)
(** * The provider's payload and the network *)
(* ===================================================================== *)

(** What the code reads of one element of [data.items].  A leaf is the
    raw value: a [link] that is not a string makes [isForbidden] raise,
    a [title] or [contextLink] of any type is interpolated into the text.
    [image = None] is a missing or null [item.image] (any other non-object
    value has the three fields undefined).  An element that is itself
    [null] is [None] in the list of items. *)
Record Image := {
  contextLink : JsVal;
  width : JsVal;
  height : JsVal
}.

Record Item := {
  link : JsVal;
  image : option Image;
  title : JsVal
}.

(** [data.items] as the loop header sees it. *)
Inductive ItemsField :=
| ItemsFalsy                               (* missing, null, ... : [!data.items] *)
| ItemsArray (items : list (option Item))  (* iterable *)
| ItemsNotIterable.                        (* truthy, length not 0, [for..of] raises *)

(** The reply to one search request ([fetch] of the Custom Search URL). *)
Inductive SearchReply :=
| SearchRejects                      (* [fetch] rejects: transport error *)
| SearchNotOk (status : nat)         (* [response.ok] is false *)
| SearchBadJson                      (* [response.json()] rejects *)
| SearchNull                         (* the body parses to [null] *)
| SearchData (items : ItemsField).

(** The reply to a HEAD request; [None] is a missing content-type header. *)
Inductive HeadReply :=
| HeadRejects
| HeadResponse (contentType : option string).

Inductive Event :=
| EvSearch (query : string) (reply : SearchReply)
| EvHead (url : string) (reply : HeadReply).

Inductive Exn := TypeError | FetchError | SyntaxError.

Inductive Outcome (A : Type) :=
| Ret (a : A)
| Throw (e : Exn).
Arguments Ret {A} a.
Arguments Throw {A} e.

(* ===================================================================== *)
(** * The pure filters of [ImageSearchService] *)
(* ===================================================================== *)

Inductive SubjectType := University | City.

Record Strategy := { name : string; query : string }.

(** [arr.some(k => text.includes(k))] *)
Definition someIncluded (text : string) (arr : list string) : bool :=
  existsb (fun k => includes text k) arr.

Definition badDomains : list string :=
  ["wikimedia.org"; "wikipedia.org"; "facebook.com"; "lookaside.fbsbx.com"].
Definition badExts : list string := [".svg"; ".gif"; ".ico"].

Definition isForbidden (url : string) : bool :=
  let lower := toLowerCase url in
  existsb (fun d => includes lower d) badDomains
  || existsb (fun e => endsWith lower e) badExts.

Definition universalBad : list string :=
  ["logo"; "crest"; "seal"; "map"; "diagram"; "clipart"; "vector";
   "black-white"; "vintage"].

Definition peopleBad : list string :=
  ["person"; "people"; "crowd"; "crowds"; "pedestrian"; "pedestrians";
   "tourist"; "tourists"; "visitor"; "visitors"; "student"; "students";
   "group"; "groups"; "audience"; "fans"; "spectator"; "spectators";
   "walking"; "standing"; "sitting"; "gathering"; "event"; "festival";
   "portrait"; "portraits"; "face"; "faces"; "human"; "humans"].

Definition notRealPhoto : list string :=
  ["picture-frame"; "picture frame"; "framed"; "frame-"; "-frame";
   "shirt"; "t-shirt"; "tshirt"; "merchandise"; "merch"; "print-on";
   "print-on-shirt"; "on-shirt"; "on-tshirt"; "apparel"; "clothing";
   "mug"; "poster-print"; "poster print"; "canvas-print"; "canvas print";
   "art-print"; "art print"; "rendered"; "3d-render"; "3d render";
   "cg-render"; "cg render"; "computer-generated"; "artificial";
   "mockup"; "mock-up"; "template"; "placeholder"; "illustration";
   "drawing"; "sketch"; "painting"; "artwork"].

Definition uniBad : list string :=
  ["stadium"; "football"; "basketball"; "sport"; "team"; "roster"; "coach";
   "mascot"; "indoor"; "classroom"; "cafeteria"].

Definition hasBadKeywords (url : string) (type : SubjectType) : bool :=
  let lower := toLowerCase url in
  if someIncluded lower universalBad then true
  else if someIncluded lower peopleBad then true
  else if someIncluded lower notRealPhoto then true
  else match type with
       | University => someIncluded lower uniBad
       | City => false
       end.

(** The inline lists of [executeStrategies]. *)
Definition notRealPhotoKeywords : list string :=
  ["picture-frame"; "picture frame"; "framed-"; "-framed"; "frame-"; "-frame";
   "shirt"; "t-shirt"; "tshirt"; "merchandise"; "merch"; "print-on";
   "print-on-shirt"; "on-shirt"; "on-tshirt"; "apparel"; "clothing";
   "mug"; "poster-print"; "poster print"; "canvas-print"; "canvas print";
   "art-print"; "art print"; "rendered"; "3d-render"; "3d render";
   "cg-render"; "cg render"; "computer-generated"; "artificial";
   "mockup"; "mock-up"; "template"; "placeholder"; "illustration"].

Definition wrongCountries : list string :=
  ["japan"; "tokyo"; "china"; "beijing"; "shanghai"; "korea"; "seoul"].

Definition campusKeywords : list string :=
  ["campus"; "building"; "architecture"; "exterior"; "university"].
Definition genericKeywords : list string :=
  ["generic"; "stock-photo"; "placeholder"; "template"].
Definition cityscapeKeywords : list string :=
  ["cityscape"; "skyline"; "urban-landscape"; "many-buildings"; "city-view";
   "buildings"; "downtown"; "waterfront"; "landmark"].
Definition singleBuildingKeywords : list string :=
  ["single-building"; "one-building"; "individual-building"].

(** Why a candidate is skipped: one constructor per [continue] of the
    item loop. *)
Inductive Reason :=
| ForbiddenSource        (* 1 *)
| BadKeyword             (* 2 *)
| NotRealPhoto           (* 2.5 *)
| UniversityNameMissing  (* 3, university *)
| CityNameMissing        (* 3, city *)
| WrongCountry           (* 3, city with country *)
| GenericStock           (* 4 *)
| SingleBuilding         (* 5 *)
| BadAspectRatio         (* 6 *)
| NotDirectImage.        (* 7 *)

(** [const allText = `${imageUrl} ${contextLink} ${title}`.toLowerCase()],
    with [contextLink = item.image?.contextLink || ""] and
    [title = item.title || ""]. *)
Definition contextLinkOf (item : Item) : JsVal :=
  or_else (match image item with
           | Some img => contextLink img
           | None => JUndefined
           end) (JString "").

Definition titleOf (item : Item) : JsVal := or_else (title item) (JString "").

Definition allTextOf (item : Item) : string :=
  toLowerCase (toText (link item) +:+ " " +:+ toText (contextLinkOf item)
               +:+ " " +:+ toText (titleOf item)).

(** [name.split(' ').filter(w => w.length > 3)]; on ASCII text the
    length in characters is the engine's [length]. *)
Definition nameWords (name : string) : list string :=
  List.filter (fun w => Nat.ltb 3 (String.length w)) (split name space).

(** Stage 3, location validation: [None] when the candidate goes on. *)
Definition locationStage (type : SubjectType) (name country allText : string)
  : option Reason :=
  if negb (String.eqb name "") then
    let nameLower := toLowerCase name in
    match type with
    | University =>
        let hasUniversityName :=
          existsb (fun word => includes allText (toLowerCase word)) (nameWords name) in
        if negb hasUniversityName then Some UniversityNameMissing else None
    | City =>
        let hasCityName := includes allText nameLower in
        if negb hasCityName then Some CityNameMissing
        else if negb (String.eqb country "") then
          let countryLower := toLowerCase country in
          let hasCountry := includes allText countryLower in
          let hasWrongCountry := someIncluded allText wrongCountries in
          if hasWrongCountry && negb hasCountry then Some WrongCountry else None
        else None
    end
  else None.

(** Stages 4 and 5, the keyword checks of the subject kind. *)
Definition kindStage (type : SubjectType) (allText : string) : option Reason :=
  match type with
  | University =>
      let hasGenericKeywords := someIncluded allText genericKeywords in
      if hasGenericKeywords then Some GenericStock else None
  | City =>
      let hasCityscapeKeywords := someIncluded allText cityscapeKeywords in
      let hasSingleBuilding := someIncluded allText singleBuildingKeywords in
      if hasSingleBuilding && negb hasCityscapeKeywords then Some SingleBuilding
      else None
  end.

(** Stage 6.  [aspect = width / height] is the exact quotient; the engine's
    double agrees with it on the two comparisons for dimensions below 2^49. *)
Definition Qlt_bool (x y : Q) : bool := negb (Qle_bool y x).

Definition aspectOf (w h : Z) : Q := (inject_Z w / inject_Z h)%Q.

Definition aspectStage (img : Image) : option Reason :=
  match parseInt (width img), parseInt (height img) with
  | Some w, Some h =>
      if negb (w =? 0) && negb (h =? 0) then
        let aspect := aspectOf w h in
        if Qlt_bool aspect (12 # 10) || Qlt_bool (25 # 10) aspect
        then Some BadAspectRatio else None
      else None
  | _, _ => None
  end.

(** The outcome of stages 1 to 6 for one element of [data.items]:
    a raised exception, a skip, or the URL handed to the classifier. *)
Inductive Verdict :=
| Rejected (r : Reason)
| Survives (imageUrl : string).

Definition filterStages (type : SubjectType) (name country : string)
    (item : option Item) : Outcome Verdict :=
  match item with
  | None => Throw TypeError                       (* [item.link] of null *)
  | Some item =>
    match link item with
    | JString imageUrl =>
        let allText := allTextOf item in
        if isForbidden imageUrl then Ret (Rejected ForbiddenSource)
        else if hasBadKeywords imageUrl type then Ret (Rejected BadKeyword)
        else if someIncluded allText notRealPhotoKeywords
        then Ret (Rejected NotRealPhoto)
        else match locationStage type name country allText with
        | Some r => Ret (Rejected r)
        | None =>
        match kindStage type allText with
        | Some r => Ret (Rejected r)
        | None =>
        match image item with
        | None => Throw TypeError                 (* [item.image.width] *)
        | Some img =>
        match aspectStage img with
        | Some r => Ret (Rejected r)
        | None => Ret (Survives imageUrl)
        end end end end
    | _ => Throw TypeError                        (* [url.toLowerCase] is not a function *)
    end
  end.

(* ===================================================================== *)
(** * The search strategies *)
(* ===================================================================== *)

Definition quoted (s : string) : string := dquote +:+ s +:+ dquote.

(** The [strategies] array of [searchUniversityImage]. *)
Definition universityStrategies (universityName : string) : list Strategy :=
  let q := quoted universityName in
  [ {| name := "Distinctive Campus Building (Best)";
       query := q +:+ " campus building distinctive architecture exterior photo -logo -crest -map -black -white -vintage -drawing -plan -diagram -person -people -crowd -pedestrian -tourist -student -generic -frame -framed -shirt -merchandise -print -rendered -mockup -template" |};
    {| name := "Iconic Main Building";
       query := q +:+ " main building iconic architecture campus exterior photo -sports -football -stadium -crowd -logo -person -people -pedestrian -tourist -student -group -generic -frame -framed -shirt -merchandise -print -rendered -mockup -template" |};
    {| name := "Campus Architecture Building";
       query := q +:+ " campus architecture building exterior daylight photo -interior -books -logo -person -people -crowd -pedestrian -generic -frame -framed -shirt -merchandise -print -rendered -mockup -template" |};
    {| name := "University Building Exterior";
       query := q +:+ " university building exterior architecture photo -logo -crest -person -people -portrait -indoor -crowd -pedestrian -tourist -student -group -generic -frame -framed -shirt -merchandise -print -rendered -mockup -template" |};
    {| name := "Campus View with Building";
       query := q +:+ " campus view building architecture photo -map -layout -plan -diagram -person -people -crowd -generic -frame -framed -shirt -merchandise -print -rendered -mockup -template" |} ].

(** The [strategies] array of [searchCityImage]: each query names the
    country, quoted, when there is one. *)
Definition cityStrategies (cityName country : string) : list Strategy :=
  let place :=
    if negb (String.eqb country "")
    then quoted cityName +:+ " " +:+ quoted country
    else quoted cityName in
  [ {| name := "Cityscape Skyline (Best)";
       query := place +:+ " city skyline many buildings cityscape photo -map -weather -radar -person -people -crowd -pedestrian -tourist -visitor -walking -standing -single -one -frame -framed -shirt -merchandise -print -rendered -mockup -template" |};
    {| name := "Waterfront Cityscape";
       query := place +:+ " waterfront cityscape buildings skyline photo -map -aerial -person -people -crowd -pedestrian -tourist -visitor -walking -single -one -frame -framed -shirt -merchandise -print -rendered -mockup -template" |};
    {| name := "Urban Cityscape";
       query := place +:+ " urban cityscape many buildings city view daylight photo -traffic -map -person -people -crowd -pedestrian -tourist -visitor -walking -single -one -frame -framed -shirt -merchandise -print -rendered -mockup -template" |};
    {| name := "Landmark with City Buildings";
       query := place +:+ " landmark cityscape buildings urban view photo -map -plan -person -people -crowd -pedestrian -visitor -single -one -frame -framed -shirt -merchandise -print -rendered -mockup -template" |};
    {| name := "Downtown Cityscape";
       query := place +:+ " downtown cityscape buildings architecture photo -map -person -people -crowd -pedestrian -visitor -single -one -frame -framed -shirt -merchandise -print -rendered -mockup -template" |} ].

(** The lists of [isValidImageUrl] and of [CityService.validateImageUrl]. *)
Definition imageExtensions : list string :=
  [".jpg"; ".jpeg"; ".png"; ".gif"; ".webp"; ".bmp"; ".svg"; ".tiff"; ".tif"].
Definition imagePathPatterns : list string :=
  ["/image/"; "/img/"; "/photo/"; "/picture/"; "/images/"; "/photos/"; "/pictures/"].
Definition imageCdnPatterns : list string :=
  ["i.imgur.com"; "cdn."; "static."; "assets."; "media."; "uploads/"].
Definition cityImageExtensions : list string :=
  [".jpg"; ".jpeg"; ".png"; ".gif"; ".webp"; ".bmp"; ".tiff"; ".tif"].

(** How the body of a [try] block ends. *)
Inductive Step (A : Type) :=
| Return (a : A)      (* [return a] *)
| Continue.           (* falls out of the block, or [continue] *)
Arguments Return {A} a.
Arguments Continue {A}.

(** What a HEAD probe's [try] block makes of the declared content type:
    [contentType = response.headers.get('content-type') || ''] *)
Definition judgeContentType (header : option string) : Step bool :=
  let contentType := default "" header in
  if startsWith contentType "image/" then Return true
  else if includes contentType "text/html" || includes contentType "application/"
  then Return false
  else Continue.

(* ===================================================================== *)
(** * The effectful functions *)
(* ===================================================================== *)

Section Network.

Context {World : Type}.
(** [fetch] of the Custom Search URL built from a strategy's query (the
    other parameters of the request are constants), and [fetch] with
    [method: 'HEAD']. *)
Variable search_api : string -> World -> SearchReply * World.
Variable head_api : string -> World -> HeadReply * World.

Definition M (A : Type) : Type := World -> Outcome A * World * list Event.

Definition ret {A} (a : A) : M A := fun w => (Ret a, w, []).

Definition throw {A} (e : Exn) : M A := fun w => (Throw e, w, []).

Definition bind {A B} (m : M A) (k : A -> M B) : M B :=
  fun w =>
    match m w with
    | (Ret a, w1, t1) => let '(r, w2, t2) := k a w1 in (r, w2, t1 ++ t2)
    | (Throw e, w1, t1) => (Throw e, w1, t1)
    end.

(** [try { m } catch (error) { handler }] *)
Definition try_catch {A} (m : M A) (handler : Exn -> M A) : M A :=
  fun w =>
    match m w with
    | (Throw e, w1, t1) => let '(r, w2, t2) := handler e w1 in (r, w2, t1 ++ t2)
    | done => done
    end.

Notation "'let*' x ':=' m 'in' k" := (bind m (fun x => k))
  (at level 10, x name, m at level 100, k at level 200, only parsing).

(** [await fetch(url.toString())] of the search request, up to
    [data.items]: the items to loop over, or [Continue]. *)
Definition fetchItems (q : string) : M (Step (list (option Item))) :=
  fun w =>
    let '(reply, w') := search_api q w in
    (match reply with
     | SearchRejects => Throw FetchError
     | SearchNotOk _ => Ret Continue
     | SearchBadJson => Throw SyntaxError
     | SearchNull => Throw TypeError
     | SearchData ItemsFalsy => Ret Continue
     | SearchData ItemsNotIterable => Throw TypeError
     | SearchData (ItemsArray []) => Ret Continue
     | SearchData (ItemsArray items) => Ret (Return items)
     end, w', [EvSearch q reply]).

(** [await fetch(url, { method: 'HEAD', redirect: 'follow' })] followed by
    the reading of the content type. *)
Definition fetchHead (url : string) : M (option string) :=
  fun w =>
    let '(reply, w') := head_api url w in
    (match reply with
     | HeadRejects => Throw FetchError
     | HeadResponse contentType => Ret contentType
     end, w', [EvHead url reply]).

(** One [try { HEAD probe } catch { return false }] block. *)
Definition probe (url : string) : M (Step bool) :=
  try_catch
    (let* header := fetchHead url in ret (judgeContentType header))
    (fun _ => ret (Return false)).

(** [ImageSearchService.isValidImageUrl] *)
Definition isValidImageUrl (url : JsVal) : M bool :=
  if negb (truthy url) || negb (String.eqb (typeof url) "string") then ret false
  else
    let url := toText url in
    let lowerUrl := toLowerCase url in
    let hasImageExtension := existsb (fun ext => includes lowerUrl ext) imageExtensions in
    let hasImagePath := existsb (fun pattern => includes lowerUrl pattern) imagePathPatterns in
    let hasImageCdn := existsb (fun pattern => includes lowerUrl pattern) imageCdnPatterns in
    if hasImageExtension then
      if endsWith lowerUrl ".svg" then ret false else ret true
    else
      let* first :=
        (if hasImagePath || hasImageCdn then probe url else ret Continue) in
      match first with
      | Return b => ret b
      | Continue =>
          let* last := probe url in
          match last with
          | Return b => ret b
          | Continue => ret false
          end
      end.

(** [CityService.validateImageUrl] *)
Definition validateImageUrl (url : JsVal) : M bool :=
  if negb (truthy url) || negb (String.eqb (typeof url) "string") then ret false
  else
    let url := toText url in
    let lowerUrl := toLowerCase url in
    let hasImageExtension :=
      existsb (fun ext => includes lowerUrl ext) cityImageExtensions in
    if hasImageExtension then
      if endsWith lowerUrl ".svg" then ret false else ret true
    else
      let* only := probe url in
      match only with
      | Return b => ret b
      | Continue => ret false
      end.

(** The body of [for (const item of data.items)]: stages 1 to 6, then
    stage 7, the classifier. *)
Definition evalItem (type : SubjectType) (name country : string)
    (item : option Item) : M (Step string) :=
  match filterStages type name country item with
  | Throw e => throw e
  | Ret (Rejected _) => ret Continue
  | Ret (Survives imageUrl) =>
      let* isValidImage := isValidImageUrl (JString imageUrl) in
      if negb isValidImage then ret Continue else ret (Return imageUrl)
  end.

Fixpoint forItems (type : SubjectType) (name country : string)
    (items : list (option Item)) : M (Step string) :=
  match items with
  | [] => ret Continue
  | item :: rest =>
      let* step := evalItem type name country item in
      match step with
      | Return imageUrl => ret (Return imageUrl)
      | Continue => forItems type name country rest
      end
  end.

(** The body of [for (const strategy of strategies)]: the [try] block
    with its [catch], which only logs. *)
Definition tryStrategy (type : SubjectType) (name country : string)
    (strategy : Strategy) : M (Step string) :=
  try_catch
    (let* items := fetchItems (query strategy) in
     match items with
     | Continue => ret Continue
     | Return items => forItems type name country items
     end)
    (fun _ => ret Continue).

(** [ImageSearchService.executeStrategies]; [None] is [null]. *)
Fixpoint executeStrategies (strategies : list Strategy) (type : SubjectType)
    (name country : string) : M (option string) :=
  match strategies with
  | [] => ret None
  | strategy :: rest =>
      let* step := tryStrategy type name country strategy in
      match step with
      | Return imageUrl => ret (Some imageUrl)
      | Continue => executeStrategies rest type name country
      end
  end.

Definition searchUniversityImage (universityName : string) : M (option string) :=
  executeStrategies (universityStrategies universityName) University universityName "".

Definition searchCityImage (cityName country : string) : M (option string) :=
  executeStrategies (cityStrategies cityName country) City cityName country.

(** The image step that ends [CityService.extractCityData]:
    [validatedData] is the record after [CitySchema.parse] and
    [_postProcess]; [imageSearchService] tells whether
    [this.imageSearchService] is set. *)
Definition extractCityData_image (imageSearchService : bool)
    (city country : string) (validatedData : gmap string JsVal)
  : M (gmap string JsVal) :=
  if imageSearchService then
    let* cityImage := searchCityImage city country in
    match cityImage with
    | Some url =>
        if truthy (JString url)
        then ret (<["city_image" := JString url]> validatedData)
        else ret validatedData
    | None => ret validatedData
    end
  else
    let city_image := default JUndefined (validatedData !! "city_image") in
    if truthy city_image then
      let* isValid := validateImageUrl city_image in
      if negb isValid
      then ret (<["city_image" := JString ""]> validatedData)
      else ret validatedData
    else ret validatedData.

End Network.

Arguments M World A : clear implicits.

(* ===================================================================== *)
(** * The first runs: the scenario of the specification *)
(* ===================================================================== *)

Module Scenario.

Definition skyline : Item :=
  {| link := JString "https://example.com/photos/example-city-skyline.jpg";
     image := Some {| contextLink := JString "https://example.com/example-city";
                      width := JNumber 1600;
                      height := JNumber 900 |};
     title := JString "Example City Canada skyline cityscape" |}.

(** A provider that has nothing for the first request and [skyline] for
    every later one; the world counts the requests. *)
Definition provider (q : string) (w : nat) : SearchReply * nat :=
  (match w with
   | O => SearchData (ItemsArray [])
   | S _ => SearchData (ItemsArray [Some skyline])
   end, S w).

Definition unreachable (url : string) (w : nat) : HeadReply * nat :=
  (HeadRejects, S w).

(** A provider that answers every request with [skyline]. *)
Definition generous (q : string) (w : nat) : SearchReply * nat :=
  (SearchData (ItemsArray [Some skyline]), S w).

(** A provider whose first reply lists a [null] element before [skyline],
    and whose later replies list [skyline] alone. *)
Definition malformed (q : string) (w : nat) : SearchReply * nat :=
  (match w with
   | O => SearchData (ItemsArray [None; Some skyline])
   | S _ => SearchData (ItemsArray [Some skyline])
   end, S w).

(** A provider that is down. *)
Definition down (q : string) (w : nat) : SearchReply * nat :=
  (SearchNotOk 503, S w).






Definition cityPage : JsVal := JString "https://example.com/example-city".

(** A validated city record, reduced to three of its fields. *)
Definition record : gmap string JsVal :=
  <["city" := JString "Example City"]>
    (<["city_image" := cityPage]>
       (<["average_rent" := JNumber 900]> ∅)).

(** A candidate that names MIT in its URL, page and title, and a provider
    that answers every request with it. *)
Definition mitCampus : Item :=
  {| link := JString "https://example.edu/photos/mit-campus-building.jpg";
     image := Some {| contextLink := JString "https://example.edu/mit";
                      width := JNumber 1600;
                      height := JNumber 900 |};
     title := JString "MIT campus building exterior" |}.

Definition mitProvider (q : string) (w : nat) : SearchReply * nat :=
  (SearchData (ItemsArray [Some mitCampus]), S w).

(** Two strategies to run the loop on. *)
Definition first : Strategy := {| name := "Skyline"; query := "skyline photo" |}.
Definition second : Strategy := {| name := "Downtown"; query := "downtown photo" |}.

Definition skylineUrl : string :=
  "https://example.com/photos/example-city-skyline.jpg".

(** A server that answers every HEAD request with an HTML page, and one
    that answers with a JPEG. *)
Definition htmlPage (url : string) (w : nat) : HeadReply * nat :=
  (HeadResponse (Some "text/html; charset=utf-8"), S w).

Definition jpegServer (url : string) (w : nat) : HeadReply * nat :=
  (HeadResponse (Some "image/jpeg"), S w).

End Scenario.

(* ===================================================================== *)
(** * Auxiliary definitions of the statements *)
(* ===================================================================== *)

(** What one probe block yields for a reply. *)
Definition probeOutcome (reply : HeadReply) : Step bool :=
  match reply with
  | HeadRejects => Return false
  | HeadResponse header => judgeContentType header
  end.

Definition isHead (e : Event) : bool :=
  match e with EvHead _ _ => true | EvSearch _ _ => false end.

(** The queries of a trace, in the order they were issued. *)
Definition searchQueries (t : list Event) : list string :=
  omap (fun e => match e with EvSearch q _ => Some q | EvHead _ _ => None end) t.

(** The replies that forfeit a strategy's turn: a transport error, a
    non-success status, a body that is not JSON or not the expected shape,
    and an empty result list. *)
Definition forfeits (reply : SearchReply) : bool :=
  match reply with
  | SearchData (ItemsArray (_ :: _)) => false
  | _ => true
  end.



(** A URL as the spec's classifier rule reads it: the text up to the query
    or the fragment is where the path ends. *)
Fixpoint spec_beforeQuery (url : string) : string :=
  match url with
  | EmptyString => EmptyString
  | String c rest =>
      if Ascii.eqb c (Ascii.ascii_of_nat 63) || Ascii.eqb c (Ascii.ascii_of_nat 35)
      then EmptyString
      else String c (spec_beforeQuery rest)
  end.

Definition spec_pathEndsIn (url ext : string) : bool :=
  endsWith (toLowerCase (spec_beforeQuery url)) ext.

(* ===================================================================== *)
(** * Where the embedding is the engine *)
(* ===================================================================== *)

(** ASCII text: there [toLowerCase], [length], [trim] and [parseInt] of
    the embedding are the engine's. *)
Definition isAsciiChar (c : Ascii.ascii) : bool :=
  Nat.ltb (Ascii.nat_of_ascii c) 128.

Fixpoint isAscii (s : string) : bool :=
  match s with
  | EmptyString => true
  | String c s' => isAsciiChar c && isAscii s'
  end.

(** A value that [toText] prints as the engine does: an ASCII string, an
    integer that a double holds exactly, an array of such, or one of the
    other values. *)
Fixpoint plain (v : JsVal) : bool :=
  match v with
  | JString s => isAscii s
  | JNumber z => Z.abs z <=? 2 ^ 53
  | JArray elems =>
      (fix each (l : list JsVal) : bool :=
         match l with
         | [] => true
         | x :: l' => plain x && each l'
         end) elems
  | _ => true
  end.



(** The three values that make up [allText]. *)
Definition plainText (item : Item) : bool :=
  plain (link item) && plain (contextLinkOf item) && plain (titleOf item).




(* ===================================================================== *)
(** * What stands behind a returned URL *)
(* ===================================================================== *)


(* ===================================================================== *)
(** * The JSON text of a model reply *)
(* ===================================================================== *)

Module Text.

(** The text before the first occurrence of [sep]; the whole text when
    there is none. *)
Fixpoint before (s sep : string) {struct s} : string :=
  if String.prefix sep s then EmptyString
  else match s with
       | EmptyString => EmptyString
       | String c s' => String c (before s' sep)
       end.

Fixpoint drop (n : nat) (s : string) : string :=
  match n, s with
  | O, _ => s
  | S _, EmptyString => EmptyString
  | S k, String _ s' => drop k s'
  end.

(** The text after the first occurrence of [sep], if there is one. *)
Fixpoint after (s sep : string) {struct s} : option string :=
  if String.prefix sep s then Some (drop (String.length sep) s)
  else match s with
       | EmptyString => None
       | String _ s' => after s' sep
       end.

Fixpoint splitFuel (fuel : nat) (s sep : string) : list string :=
  before s sep ::
  match fuel, after s sep with
  | S k, Some rest => splitFuel k rest sep
  | _, _ => []
  end.

(** [s.split(sep)] for a separator that is not empty: each cut shortens
    the text, so its length is fuel enough. *)
Definition splitString (s sep : string) : list string :=
  splitFuel (String.length s) s sep.

(** [s.trimEnd()] and [s.trim()], on the white space of ASCII. *)
Fixpoint trimEnd (s : string) : string :=
  match s with
  | EmptyString => EmptyString
  | String c s' =>
      match trimEnd s' with
      | EmptyString => if isWhiteSpace c then EmptyString else String c EmptyString
      | kept => String c kept
      end
  end.

Definition trim (s : string) : string := trimEnd (trimStart s).

(** A text that neither begins nor ends inside a character beyond ASCII.
    When what [trim] leaves is such a text, the engine's [trim], which
    also strips the white space beyond ASCII, leaves the same. *)
Fixpoint lastChar (c : Ascii.ascii) (s : string) : Ascii.ascii :=
  match s with
  | EmptyString => c
  | String c' s' => lastChar c' s'
  end.

Definition asciiEnds (s : string) : bool :=
  match s with
  | EmptyString => true
  | String c s' => isAsciiChar c && isAsciiChar (lastChar c s')
  end.

Definition fence : string := "```".
Definition jsonFence : string := "```json".

(** [arr[i]] followed by a method call: reading a missing element gives
    [undefined], on which the call raises. *)
Definition element (arr : list string) (i : nat) : Outcome string :=
  match nth_error arr i with
  | Some x => Ret x
  | None => Throw TypeError
  end.

(** The clean-up of [response.text()] in [CityService.extractCityData] and
    [GeminiService.extractUniversityData]: the text inside the first
    Markdown code block, when there is one. *)
Definition jsonText (responseText : string) : Outcome string :=
  if includes responseText jsonFence then
    match element (splitString responseText jsonFence) 1 with
    | Ret fenced =>
        match element (splitString fenced fence) 0 with
        | Ret inner => Ret (trim inner)
        | Throw e => Throw e
        end
    | Throw e => Throw e
    end
  else if includes responseText fence then
    match element (splitString responseText fence) 1 with
    | Ret fenced =>
        match element (splitString fenced fence) 0 with
        | Ret inner => Ret (trim inner)
        | Throw e => Throw e
        end
    | Throw e => Throw e
    end
  else Ret responseText.

End Text.

(* ===================================================================== *)
(** * [CityService._postProcess] *)
(* ===================================================================== *)

Module CityRecord.

(** A field that the schema declares [.nullable().optional()]. *)
Inductive Nullable (A : Type) :=
| Undefined
| Null
| Value (a : A).
Arguments Undefined {A}.
Arguments Null {A}.
Arguments Value {A} a.

(** A number that is not NaN (the schema refuses NaN): a finite one, as
    the rational it is, or an infinity. *)
Inductive JsNumber :=
| Finite (q : Q)
| PosInfinity
| NegInfinity.

Record Source := {
  field : string;
  source_name : string;
  source_url : string
}.

(** The object that [CitySchema.parse] returns: the fields of the schema
    at their types.  The integer fields are exact integers, and their sum
    is the exact one: the engine's sum of doubles is the same when the
    amounts are at most 2^50 ([safeCosts]). *)
Record CityData := {
  city : string;
  state : Nullable string;
  country : string;
  city_image : string;
  city_rating : string;
  climate : Nullable string;
  average_monthly_cost_of_living : Z;
  average_rent : Z;
  average_food_cost : Z;
  transportation : Z;
  utilities : Z;
  internet_and_subscriptions : Z;
  miscellaneous : Z;
  currency : string;
  average_part_time_job_pay : Nullable JsNumber;
  student_happiness_score : Nullable JsNumber;
  top_3_most_expensive_cities_in_region : list string;
  top_3_most_affordable_cities_in_region : list string;
  number_of_universities : Z;
  sources : list Source;
  data_notes : string
}.

(** [x || 0] on a number. *)
Definition orZero (x : Z) : Z := if x =? 0 then 0 else x.

(** [a <= b] on numbers. *)
Definition numLe (a b : JsNumber) : bool :=
  match a, b with
  | NegInfinity, _ => true
  | _, PosInfinity => true
  | Finite x, Finite y => Qle_bool x y
  | _, _ => false
  end.

(** [Math.min(a, b)] and [Math.max(a, b)] *)
Definition mathMin (a b : JsNumber) : JsNumber := if numLe a b then a else b.
Definition mathMax (a b : JsNumber) : JsNumber := if numLe a b then b else a.

(** [parseInt(s, 10)]: with the radix given, no "0x" prefix is read. *)
Definition parseInt10 (s : string) : option Z :=
  let s1 := trimStart s in
  let '(sign, s2) :=
    match s1 with
    | String c r =>
        if Ascii.eqb c (Ascii.ascii_of_nat 45) then (-1, r)
        else if Ascii.eqb c (Ascii.ascii_of_nat 43) then (1, r)
        else (1, s1)
    | EmptyString => (1, s1)
    end in
  option_map (Z.mul sign) (readDigits 10 s2 None).

Definition climates : list string := ["warm"; "moderate"; "cold"].

(** [['warm', 'moderate', 'cold'].includes(c)] *)
Definition isClimate (c : string) : bool :=
  existsb (fun x => String.eqb x c) climates.

Definition expectedSum (data : CityData) : Z :=
  orZero (average_rent data) + orZero (average_food_cost data)
  + orZero (transportation data) + orZero (utilities data)
  + orZero (internet_and_subscriptions data) + orZero (miscellaneous data).

(** The four assignments of [_postProcess], each on its own field. *)
Definition fixedTotal (data : CityData) : Z :=
  if negb (average_monthly_cost_of_living data =? expectedSum data)
  then expectedSum data
  else average_monthly_cost_of_living data.

Definition clampedScore (score : Nullable JsNumber) : Nullable JsNumber :=
  match score with
  | Value s => Value (mathMax (Finite 0) (mathMin (Finite 100) s))
  | Undefined => Undefined
  | Null => Null
  end.

Definition normalRating (city_rating : string) : string :=
  if negb (String.eqb city_rating "") then
    match parseInt10 city_rating with
    | None => "3"
    | Some rating =>
        if (rating <? 1) || (5 <? rating) then "3"
        else toText (JNumber rating)
    end
  else city_rating.

Definition checkedClimate (climate : Nullable string) : Nullable string :=
  match climate with
  | Value c =>
      if negb (String.eqb c "") && negb (isClimate c) then Null else Value c
  | Undefined => Undefined
  | Null => Null
  end.

(** [CityService._postProcess]: the record after the in-place updates. *)
Definition _postProcess (data : CityData) : CityData :=
  {| city := city data;
     state := state data;
     country := country data;
     city_image := city_image data;
     city_rating := normalRating (city_rating data);
     climate := checkedClimate (climate data);
     average_monthly_cost_of_living := fixedTotal data;
     average_rent := average_rent data;
     average_food_cost := average_food_cost data;
     transportation := transportation data;
     utilities := utilities data;
     internet_and_subscriptions := internet_and_subscriptions data;
     miscellaneous := miscellaneous data;
     currency := currency data;
     average_part_time_job_pay := average_part_time_job_pay data;
     student_happiness_score := clampedScore (student_happiness_score data);
     top_3_most_expensive_cities_in_region :=
       top_3_most_expensive_cities_in_region data;
     top_3_most_affordable_cities_in_region :=
       top_3_most_affordable_cities_in_region data;
     number_of_universities := number_of_universities data;
     sources := sources data;
     data_notes := data_notes data |}.

(** A finite score within [0, 100]. *)
Definition inRange (score : JsNumber) : Prop :=
  exists q, score = Finite q /\ (0 <= q)%Q /\ (q <= 100)%Q.

(** An amount small enough for six of them to add up without rounding:
    every partial sum stays below 2^53. *)
Definition safeAmount (x : Z) : bool := Z.abs x <=? 2 ^ 50.

Definition safeCosts (data : CityData) : bool :=
  forallb safeAmount
    [average_rent data; average_food_cost data; transportation data;
     utilities data; internet_and_subscriptions data; miscellaneous data].

End CityRecord.

(* ===================================================================== *)
(** * The controllers *)
(* ===================================================================== *)

Module Controller.

(** What a [catch] receives: an [Error] object with its [name] and
    [message], or a value that is not an [Error]. *)
Inductive Thrown :=
| ErrorObject (name message : string)
| NotAnError.

(** How an awaited call ends. *)
Inductive Settled (A : Type) :=
| Fulfilled (a : A)
| Failed (e : Thrown).
Arguments Fulfilled {A} a.
Arguments Failed {A} e.

(** The JSON bodies the controllers send. *)
Inductive Body (Data : Type) :=
| ErrorOnly (error : string)
| ErrorDetails (error details : string)
| ErrorMessage (error message : string)
| Payload (data : Data).
Arguments ErrorOnly {Data} error.
Arguments ErrorDetails {Data} error details.
Arguments ErrorMessage {Data} error message.
Arguments Payload {Data} data.

Record Response (Data : Type) := {
  status : nat;
  body : Body Data
}.
Arguments status {Data} r.
Arguments body {Data} r.

(** [obj.key] for the keys the controllers read, on a request body that
    is not null or undefined: the last binding of a key wins, as
    [JSON.parse] has it. *)
Fixpoint lookupField (fields : list (string * JsVal)) (key : string) : JsVal :=
  match fields with
  | [] => JUndefined
  | (k, v) :: rest =>
      match lookupField rest key with
      | JUndefined => if String.eqb k key then v else JUndefined
      | later => later
      end
  end.

Definition property (obj : JsVal) (key : string) : JsVal :=
  match obj with
  | JObject fields => lookupField fields key
  | _ => JUndefined
  end.

(** [!v || typeof v !== 'string'] *)
Definition notAString (v : JsVal) : bool :=
  negb (truthy v) || negb (String.eqb (typeof v) "string").

Definition cityBodyError : string :=
  "Invalid request body. Expected: { " +:+ dquote +:+ "city" +:+ dquote
  +:+ ": " +:+ dquote +:+ "string" +:+ dquote +:+ ", " +:+ dquote +:+ "state"
  +:+ dquote +:+ ": " +:+ dquote +:+ "string" +:+ dquote +:+ " (optional), "
  +:+ dquote +:+ "country" +:+ dquote +:+ ": " +:+ dquote +:+ "string"
  +:+ dquote +:+ " }".

Definition countryError : string :=
  "Country is required. Expected: { " +:+ dquote +:+ "city" +:+ dquote
  +:+ ": " +:+ dquote +:+ "string" +:+ dquote +:+ ", " +:+ dquote +:+ "state"
  +:+ dquote +:+ ": " +:+ dquote +:+ "string" +:+ dquote +:+ " (optional), "
  +:+ dquote +:+ "country" +:+ dquote +:+ ": " +:+ dquote +:+ "string"
  +:+ dquote +:+ " }".

Definition universityBodyError : string :=
  "Invalid request body. Expected: { " +:+ dquote +:+ "university" +:+ dquote
  +:+ ": " +:+ dquote +:+ "string" +:+ dquote +:+ " }".

Section Handlers.

Context {Data : Type}.
(** The message of the [TypeError] that destructuring a null or undefined
    [req.body] raises. *)
Variable destructuringMessage : string.

(** The [catch] block of a controller, with its label. *)
Definition failure (label : string) (error : Thrown) : Response Data :=
  match error with
  | ErrorObject name message =>
      if String.eqb name "ZodError"
      then {| status := 500;
              body := ErrorDetails "Data validation failed" message |}
      else {| status := 500; body := ErrorMessage label message |}
  | NotAnError =>
      {| status := 500; body := ErrorMessage label "Unknown error occurred" |}
  end.

(** [CityController.extract]: [extractCityData] is the service call and
    [parse] is [CitySchema.parse]. *)
Definition cityExtract
    (extractCityData : string -> JsVal -> string -> Settled Data)
    (parse : Data -> Settled Data) (reqBody : JsVal) : Response Data :=
  match reqBody with
  | JUndefined | JNull =>
      failure "City extraction failed"
        (ErrorObject "TypeError" destructuringMessage)
  | _ =>
      let city := property reqBody "city" in
      let state := property reqBody "state" in
      let country := property reqBody "country" in
      if notAString city
      then {| status := 400; body := ErrorOnly cityBodyError |}
      else if notAString country
      then {| status := 400; body := ErrorOnly countryError |}
      else
        match extractCityData (toText city) (or_else state JNull)
                (toText country) with
        | Failed error => failure "City extraction failed" error
        | Fulfilled cityData =>
            match parse cityData with
            | Failed error => failure "City extraction failed" error
            | Fulfilled validatedData =>
                {| status := 200; body := Payload validatedData |}
            end
        end
  end.

(** [UniversityController.extract]: [extractUniversityData] is the
    service call and [parse] is [UniversitySchema.parse]. *)
Definition universityExtract
    (extractUniversityData : string -> Settled Data)
    (parse : Data -> Settled Data) (reqBody : JsVal) : Response Data :=
  match reqBody with
  | JUndefined | JNull =>
      failure "Extraction failed" (ErrorObject "TypeError" destructuringMessage)
  | _ =>
      let university := property reqBody "university" in
      if notAString university
      then {| status := 400; body := ErrorOnly universityBodyError |}
      else
        match extractUniversityData (toText university) with
        | Failed error => failure "Extraction failed" error
        | Fulfilled universityData =>
            match parse universityData with
            | Failed error => failure "Extraction failed" error
            | Fulfilled validatedData =>
                {| status := 200; body := Payload validatedData |}
            end
        end
  end.

End Handlers.

End Controller.

(* ===================================================================== *)
(** * The image step of [GeminiService.extractUniversityData] *)
(* ===================================================================== *)

Module GeminiService.

Section Images.

Context {World : Type}.
Variable search_api : string -> World -> SearchReply * World.
Variable head_api : string -> World -> HeadReply * World.

Notation "'let*' x ':=' m 'in' k" := (bind m (fun x => k))
  (at level 10, x name, m at level 100, k at level 200, only parsing).

(** [GeminiService.validateImageUrl]: its body is, line for line, that of
    [ImageSearchService.isValidImageUrl]. *)
Definition validateImageUrl (url : JsVal) : M World bool :=
  isValidImageUrl head_api url.

(** [validatedData.<field> = found || ''] of the search branch. *)
Definition override (field : string) (found : option string)
    (validatedData : gmap string JsVal) : gmap string JsVal :=
  match found with
  | Some url =>
      if truthy (JString url)
      then <[field := JString url]> validatedData
      else <[field := JString ""]> validatedData
  | None => <[field := JString ""]> validatedData
  end.

(** One [if (validatedData.<field>) { validate } else { '' }] block of the
    fallback branch. *)
Definition validateField (field : string) (validatedData : gmap string JsVal)
  : M World (gmap string JsVal) :=
  let current := default JUndefined (validatedData !! field) in
  if truthy current then
    let* isValid := validateImageUrl current in
    if negb isValid
    then ret (<[field := JString ""]> validatedData)
    else ret validatedData
  else ret (<[field := JString ""]> validatedData).

(** The image step that ends [extractUniversityData]: [university],
    [city] and [country] are [validatedData.university],
    [validatedData.location.city] and [validatedData.location.country],
    strings by the schema. *)
Definition extractUniversityData_images (imageSearchService : bool)
    (university city country : string) (validatedData : gmap string JsVal)
  : M World (gmap string JsVal) :=
  if imageSearchService then
    let* universityImage :=
      searchUniversityImage search_api head_api university in
    let* cityImage := searchCityImage search_api head_api city country in
    ret (override "city_image" cityImage
           (override "university_image" universityImage validatedData))
  else
    let* checked := validateField "university_image" validatedData in
    validateField "city_image" checked.

End Images.

End GeminiService.

(* ===================================================================== *)
(** * The services' [catch] clauses *)
(* ===================================================================== *)

Module ServiceErrors.

Import Controller.

(** [catch (error)] of [extractCityData] and of [extractUniversityData]:
    whatever was raised inside is raised again as a new [Error] whose
    message carries the service's prefix. *)
Definition cityPrefix : string := "City data extraction failed: ".
Definition geminiPrefix : string := "Gemini extraction failed: ".

Definition messageOf (error : Thrown) : string :=
  match error with
  | ErrorObject _ message => message
  | NotAnError => "Unknown error"
  end.

Definition rethrown (prefix : string) (error : Thrown) : Thrown :=
  ErrorObject "Error" (prefix +:+ messageOf error).

(** [try { body } catch (error) { throw new Error(...) }] *)
Definition guarded {A : Type} (prefix : string) (body : Settled A) : Settled A :=
  match body with
  | Fulfilled a => Fulfilled a
  | Failed error => Failed (rethrown prefix error)
  end.

End ServiceErrors.

(* ===================================================================== *)
(** * Further inputs to run the functions on *)
(* ===================================================================== *)

Module Cases.


(** A server that answers every HEAD request with plain text. *)
Definition plainText (url : string) (w : nat) : HeadReply * nat :=
  (HeadResponse (Some "text/plain"), S w).

Definition heroUrl : string := "https://cdn.example.com/hero".

(** The pieces of a fenced reply. *)
Definition prose : string := "Here is the record: ".
Definition payload : string := " { } ".
Definition closing : string := " Done.".

(** A record as the model may return it: a total that is not the sum, a
    rating with text around it, a score above the scale and a climate
    that is not one of the three. *)
Definition rawCity : CityRecord.CityData :=
  {| CityRecord.city := "Example City";
     CityRecord.state := CityRecord.Null;
     CityRecord.country := "Canada";
     CityRecord.city_image := "https://example.com/example-city";
     CityRecord.city_rating := " 4.7/5";
     CityRecord.climate := CityRecord.Value "tropical";
     CityRecord.average_monthly_cost_of_living := 2000;
     CityRecord.average_rent := 900;
     CityRecord.average_food_cost := 400;
     CityRecord.transportation := 100;
     CityRecord.utilities := 80;
     CityRecord.internet_and_subscriptions := 40;
     CityRecord.miscellaneous := 150;
     CityRecord.currency := "CAD";
     CityRecord.average_part_time_job_pay := CityRecord.Undefined;
     CityRecord.student_happiness_score :=
       CityRecord.Value (CityRecord.Finite 120);
     CityRecord.top_3_most_expensive_cities_in_region := [];
     CityRecord.top_3_most_affordable_cities_in_region := [];
     CityRecord.number_of_universities := 3;
     CityRecord.sources := [];
     CityRecord.data_notes := "" |}.

(** Request bodies, and services that echo what they are asked for. *)
Definition cityRequest : JsVal :=
  JObject [("city", JString "Lagos"); ("country", JString "Nigeria")].
Definition universityRequest : JsVal :=
  JObject [("university", JString "MIT")].

Definition echoCity (city : string) (state : JsVal) (country : string)
  : Controller.Settled string :=
  Controller.Fulfilled (city +:+ ", " +:+ country).
Definition echoUniversity (university : string) : Controller.Settled string :=
  Controller.Fulfilled university.
Definition accept (data : string) : Controller.Settled string :=
  Controller.Fulfilled data.




(** A service body that fails on a schema violation of the model's reply. *)
Definition rejectedReply (city : string) (state : JsVal) (country : string)
  : Controller.Settled string :=
  Controller.Failed (Controller.ErrorObject "ZodError" "city_rating: Required").

Definition rejectedProfile (university : string) : Controller.Settled string :=
  Controller.Failed (Controller.ErrorObject "ZodError" "university: Required").

End Cases.

(** The guard of the classifiers lets a non-empty string through. *)
Ltac guard_passes :=
  match goal with
  | |- context [negb (truthy (JString (String ?c ?s)))
                || negb (String.eqb (typeof (JString (String ?c ?s))) "string")] =>
      change (negb (truthy (JString (String c s)))
              || negb (String.eqb (typeof (JString (String c s))) "string"))
        with false;
      change (toText (JString (String c s))) with (String c s);
      cbv beta iota zeta
  end.

(* ===================================================================== *)
(** * Runs on concrete inputs *)
(* ===================================================================== *)

Example toLowerCase_ex : toLowerCase "HTTPS://A.com/Pic.JPG" = "https://a.com/pic.jpg".
Proof. reflexivity. Qed.
Example split_ex : split "a  bc" space = ["a"; ""; "bc"].
Proof. reflexivity. Qed.
Example split_empty_ex : split "" space = [""].
Proof. reflexivity. Qed.
Example toText_ex :
  toText (JArray [JNumber 16; JNull; JString "x"; JNumber (-3)]) = "16,,x,-3".
Proof. reflexivity. Qed.
Example parseInt_ex :
  map parseInt [JNumber 1600; JString " 900px"; JString "0x1F"; JString "-12";
                JUndefined; JString "px"; JNumber 0; JString "0x"]
  = [Some 1600; Some 900; Some 31; Some (-12); None; None; Some 0; None].
Proof. reflexivity. Qed.

Example malformed_payload_forfeits_the_strategy :
  (searchCityImage Scenario.malformed Scenario.unreachable
     "Example City" "Canada" 0%nat).1
  = (Ret (Some "https://example.com/photos/example-city-skyline.jpg"), 2%nat).
Proof. vm_compute. reflexivity. Qed.

Example poster_print_is_rejected :
  filterStages City "Example City" "Canada"
    (Some {| link := JString "https://example.com/photos/example-city-skyline.jpg";
             image := image Scenario.skyline;
             title := JString "Example City Canada skyline Poster Print" |})
  = Ret (Rejected NotRealPhoto).
Proof. vm_compute. reflexivity. Qed.

Example two_provider_calls :
  let '(found, w, t) :=
    searchCityImage Scenario.provider Scenario.unreachable "Example City" "Canada" 0%nat in
  found = Ret (Some "https://example.com/photos/example-city-skyline.jpg")
  /\ w = 2%nat /\ length t = 2%nat.
Proof. vm_compute. auto. Qed.


(* ===================================================================== *)
(** * Facts about the string operations *)
(* ===================================================================== *)

Section StringFacts.

Lemma includes_nil (sub : string) :
  includes "" sub = String.prefix sub "".
Proof. simpl; apply orb_false_r. Qed.

Lemma includes_cons (c : Ascii.ascii) (s sub : string) :
  includes (String c s) sub = String.prefix sub (String c s) || includes s sub.
Proof. reflexivity. Qed.

Lemma endsWith_nil (suf : string) : endsWith "" suf = String.eqb "" suf.
Proof. unfold endsWith; apply orb_false_r. Qed.

Lemma endsWith_cons (c : Ascii.ascii) (s suf : string) :
  endsWith (String c s) suf = String.eqb (String c s) suf || endsWith s suf.
Proof. reflexivity. Qed.

Lemma prefix_cons (a b : Ascii.ascii) (p s : string) :
  String.prefix (String a p) (String b s)
  = if Ascii.ascii_dec a b then String.prefix p s else false.
Proof. reflexivity. Qed.

Lemma prefix_refl (s : string) : String.prefix s s = true.
Proof.
  induction s as [|c s IH]; simpl; [reflexivity|].
  destruct (Ascii.ascii_dec c c); [exact IH | congruence].
Qed.

Lemma includes_prefix (s p : string) :
  startsWith s p = true -> includes s p = true.
Proof.
  unfold startsWith; intros H; destruct s.
  - rewrite includes_nil; exact H.
  - rewrite includes_cons, H; reflexivity.
Qed.

Lemma endsWith_includes (s suf : string) :
  endsWith s suf = true -> includes s suf = true.
Proof.
  induction s as [|c s IH].
  - rewrite endsWith_nil, includes_nil; intros H.
    apply String.eqb_eq in H; subst; reflexivity.
  - rewrite endsWith_cons, includes_cons; intros H.
    apply orb_true_iff in H as [H|H].
    + apply String.eqb_eq in H; subst suf.
      rewrite prefix_refl; reflexivity.
    + rewrite (IH H); apply orb_true_r.
Qed.

Lemma endsWith_length (s suf : string) :
  endsWith s suf = true -> (String.length suf <= String.length s)%nat.
Proof.
  induction s as [|c s IH].
  - rewrite endsWith_nil; intros H; apply String.eqb_eq in H; subst; simpl; lia.
  - rewrite endsWith_cons; intros H; apply orb_true_iff in H as [H|H].
    + apply String.eqb_eq in H; subst; simpl; lia.
    + apply IH in H; simpl; lia.
Qed.

(** Two endings of one string: the shorter is an ending of the longer. *)
Lemma endsWith_both (s a b : string) :
  endsWith s a = true -> endsWith s b = true ->
  (String.length b <= String.length a)%nat -> endsWith a b = true.
Proof.
  induction s as [|c s IH]; intros Ha Hb Hlen.
  - rewrite endsWith_nil in Ha, Hb.
    apply String.eqb_eq in Ha, Hb; subst; reflexivity.
  - rewrite endsWith_cons in Ha; apply orb_true_iff in Ha as [Ha|Ha].
    + apply String.eqb_eq in Ha; subst a; exact Hb.
    + rewrite endsWith_cons in Hb; apply orb_true_iff in Hb as [Hb|Hb].
      * apply String.eqb_eq in Hb; subst b.
        apply endsWith_length in Ha; simpl in Hlen; lia.
      * exact (IH Ha Hb Hlen).
Qed.

Lemma prefix_toLowerCase (p s : string) :
  String.prefix p s = true ->
  String.prefix (toLowerCase p) (toLowerCase s) = true.
Proof.
  revert s; induction p as [|c p IH]; intros [|d s]; simpl;
    try reflexivity; try discriminate.
  destruct (Ascii.ascii_dec c d) as [->|]; [|discriminate].
  intros H; destruct (Ascii.ascii_dec (lowerChar d) (lowerChar d));
    [auto | congruence].
Qed.

(** Lower-casing keeps occurrences: what [allText.includes] relies on. *)
Lemma includes_toLowerCase (s sub : string) :
  includes s sub = true -> includes (toLowerCase s) (toLowerCase sub) = true.
Proof.
  induction s as [|c s IH]; intros H.
  - rewrite includes_nil in H; change (toLowerCase "") with "".
    rewrite includes_nil; exact (prefix_toLowerCase sub "" H).
  - rewrite includes_cons in H; apply orb_true_iff in H as [H|H].
    + pose proof (prefix_toLowerCase sub (String c s) H) as P.
      change (toLowerCase (String c s))
        with (String (lowerChar c) (toLowerCase s)) in P |- *.
      rewrite includes_cons, P; reflexivity.
    + change (toLowerCase (String c s)) with (String (lowerChar c) (toLowerCase s)).
      rewrite includes_cons, (IH H); apply orb_true_r.
Qed.


End StringFacts.

(* ===================================================================== *)
(** * The URL classifier *)
(* ===================================================================== *)

Section Classifier.

Context {World : Type}.
Variable head_api : string -> World -> HeadReply * World.

Lemma probe_eq (url : string) (w : World) :
  probe head_api url w
  = (Ret (probeOutcome (head_api url w).1), (head_api url w).2,
     [EvHead url (head_api url w).1]).
Proof.
  unfold probe, try_catch, bind, fetchHead, ret.
  destruct (head_api url w) as [[|header] w']; reflexivity.
Qed.

Lemma judge_html (contentType : string) :
  startsWith contentType "text/html" = true ->
  judgeContentType (Some contentType) = Return false.
Proof.
  intros H; unfold judgeContentType.
  change (default "" (Some contentType)) with contentType; cbv zeta.
  rewrite (includes_prefix _ _ H).
  unfold startsWith in *.
  destruct contentType as [|c ct]; [discriminate|].
  rewrite prefix_cons in H.
  destruct (Ascii.ascii_dec _ c) as [<-|]; [|discriminate].
  rewrite prefix_cons.
  destruct (Ascii.ascii_dec _ _) as [E|_]; [discriminate E|reflexivity].
Qed.

(** Every run of the classifier returns a boolean, asks only for the URL
    it was given, and answers [false] once a probe has failed. *)
Lemma isValidImageUrl_run (url : JsVal) (w : World) :
  exists b w' t,
    isValidImageUrl head_api url w = (Ret b, w', t)
    /\ Forall (fun e => exists reply, e = EvHead (toText url) reply) t
    /\ (forall u, In (EvHead u HeadRejects) t -> b = false).
Proof.
  unfold isValidImageUrl.
  destruct (negb (truthy url) || negb (String.eqb (typeof url) "string")).
  { exists false, w, []; repeat split; auto; intros u []. }
  cbv zeta.
  destruct (existsb _ imageExtensions).
  { destruct (endsWith _ ".svg");
      eexists _, w, []; repeat split; auto; intros u []. }
  assert (Hlast : forall w0 t0,
    Forall (fun e => exists reply, e = EvHead (toText url) reply) t0 ->
    (forall u, ~ In (EvHead u HeadRejects) t0) ->
    exists b w' t,
      (let '(r, w2, t2) :=
         (bind (probe head_api (toText url))
            (fun last => match last with
                         | Return b => ret b
                         | Continue => ret false
                         end)) w0 in (r, w2, t0 ++ t2)) = (Ret b, w', t)
      /\ Forall (fun e => exists reply, e = EvHead (toText url) reply) t
      /\ (forall u, In (EvHead u HeadRejects) t -> b = false)).
  { intros w0 t0 Ht0 Hno. unfold bind. rewrite probe_eq.
    destruct (head_api (toText url) w0) as [reply w1]; cbn [fst snd].
    assert (Hall : Forall (fun e => exists r, e = EvHead (toText url) r)
                     (t0 ++ [EvHead (toText url) reply] ++ [])).
    { apply Forall_app; split; [exact Ht0|]. repeat constructor; eauto. }
    destruct reply as [|header]; cbn [probeOutcome].
    - eexists _, _, _; split; [reflexivity|]; split; [exact Hall|]; auto.
    - destruct (judgeContentType header) as [b|];
        (eexists _, _, _; split; [reflexivity|]; split; [exact Hall|]);
        intros u Hin; apply in_app_or in Hin as [Hin|Hin];
        try (exfalso; exact (Hno u Hin));
        destruct Hin as [Hin|[]]; discriminate. }
  destruct (existsb _ imagePathPatterns || existsb _ imageCdnPatterns).
  - unfold bind at 1. rewrite probe_eq.
    destruct (head_api (toText url) w) as [reply w1]; cbn [fst snd].
    destruct reply as [|header]; cbn [probeOutcome].
    + eexists _, _, _; split; [reflexivity|]; split;
        [repeat constructor; eauto | auto].
    + destruct (judgeContentType header) as [b|].
      * eexists _, _, _; split; [reflexivity|]; split;
          [repeat constructor; eauto |].
        intros u [Hin|[]]; discriminate.
      * apply Hlast; [repeat constructor; eauto |].
        intros u [Hin|[]]; discriminate.
  - unfold bind at 1; cbn [ret].
    apply (Hlast w []); [constructor | intros u H; exact H].
Qed.

Lemma has_extension_nonempty (url : string) (exts : list string) :
  existsb (fun ext => includes (toLowerCase url) ext) exts = true ->
  Forall (fun ext => ext <> "") exts -> url <> "".
Proof.
  intros H Hne ->. apply existsb_exists in H as (ext & Hin & Hinc).
  rewrite List.Forall_forall in Hne. specialize (Hne ext Hin).
  change (toLowerCase "") with "" in Hinc. rewrite includes_nil in Hinc.
  destruct ext; [congruence | discriminate].
Qed.

Lemma imageExtensions_nonempty : Forall (fun ext => ext <> "") imageExtensions.
Proof. repeat constructor; discriminate. Qed.

Lemma isValidImageUrl_extension (url : string) (w : World) :
  existsb (fun ext => includes (toLowerCase url) ext) imageExtensions = true ->
  isValidImageUrl head_api (JString url) w
  = (Ret (negb (endsWith (toLowerCase url) ".svg")), w, []).
Proof.
  intros Hext.
  pose proof (has_extension_nonempty url _ Hext imageExtensions_nonempty) as Hne.
  destruct url as [|c s]; [congruence|].
  unfold isValidImageUrl; guard_passes. rewrite Hext.
  destruct (endsWith _ ".svg"); reflexivity.
Qed.

Lemma raster_not_svg (lowerUrl ext : string) :
  In ext imageExtensions -> ext <> ".svg" ->
  endsWith lowerUrl ext = true -> endsWith lowerUrl ".svg" = false.
Proof.
  intros Hin Hne Hext.
  destruct (endsWith lowerUrl ".svg") eqn:Hsvg; [|reflexivity].
  assert (Hlen : (String.length ".svg" <= String.length ext)%nat).
  { simpl in Hin; decompose [or] Hin; subst; simpl; try lia; contradiction. }
  pose proof (endsWith_both lowerUrl ext ".svg" Hext Hsvg Hlen) as Hboth.
  simpl in Hin; decompose [or] Hin; subst;
    try discriminate Hboth; try contradiction; congruence.
Qed.

Lemma isValidImageUrl_first_probe (url : string) (w : World) :
  url <> "" ->
  existsb (fun ext => includes (toLowerCase url) ext) imageExtensions = false ->
  forall b, probeOutcome (head_api url w).1 = Return b ->
  isValidImageUrl head_api (JString url) w
  = (Ret b, (head_api url w).2, [EvHead url (head_api url w).1]).
Proof.
  intros Hne Hext b Hout.
  destruct url as [|c s]; [congruence|].
  unfold isValidImageUrl; guard_passes. rewrite Hext.
  destruct (existsb _ imagePathPatterns || existsb _ imageCdnPatterns);
    unfold bind; cbn [ret]; rewrite probe_eq, Hout; reflexivity.
Qed.

(** C3 (as amended).  The classifier accepts, without any request, every
    URL whose lower-cased text contains a known image extension and does
    not end in ".svg"; in particular every URL that ends in a known
    extension other than ".svg" (".jpg", ".png", ".webp", ...).  And when
    it does probe a URL, a reply that declares a [text/html] content type
    makes it answer [false] after that single request. *)
Theorem classifier_extension_and_html (url : string) (w : World) :
  (existsb (fun ext => includes (toLowerCase url) ext) imageExtensions = true ->
   endsWith (toLowerCase url) ".svg" = false ->
   isValidImageUrl head_api (JString url) w = (Ret true, w, []))
  /\ (forall ext,
        In ext imageExtensions -> ext <> ".svg" ->
        endsWith (toLowerCase url) ext = true ->
        isValidImageUrl head_api (JString url) w = (Ret true, w, []))
  /\ (forall contentType w',
        url <> "" ->
        existsb (fun ext => includes (toLowerCase url) ext) imageExtensions = false ->
        head_api url w = (HeadResponse (Some contentType), w') ->
        startsWith contentType "text/html" = true ->
        isValidImageUrl head_api (JString url) w
        = (Ret false, w', [EvHead url (HeadResponse (Some contentType))])).
Proof.
  assert (Hcontains :
    existsb (fun ext => includes (toLowerCase url) ext) imageExtensions = true ->
    endsWith (toLowerCase url) ".svg" = false ->
    isValidImageUrl head_api (JString url) w = (Ret true, w, [])).
  { intros Hext Hsvg. rewrite (isValidImageUrl_extension url w Hext), Hsvg.
    reflexivity. }
  split; [exact Hcontains|]. split.
  - intros ext Hin Hne Hends. apply Hcontains.
    + apply existsb_exists. exists ext. split; [exact Hin|].
      apply endsWith_includes, Hends.
    + exact (raster_not_svg _ ext Hin Hne Hends).
  - intros contentType w' Hne Hext Hhead Hct.
    rewrite (isValidImageUrl_first_probe url w Hne Hext false).
    + rewrite Hhead. reflexivity.
    + rewrite Hhead. cbn [fst probeOutcome]. exact (judge_html _ Hct).
Qed.

(** C4.  The classifier never raises: every call returns a boolean.  When
    a HEAD request it issued was rejected (the host is unreachable, the
    request errors) the answer is [false]; so it is for the URL that needs
    a probe and whose probe fails, after that single request. *)
Theorem classifier_probe_failure (url : JsVal) (w : World) :
  (exists b w' t,
     isValidImageUrl head_api url w = (Ret b, w', t)
     /\ (forall u, In (EvHead u HeadRejects) t -> b = false))
  /\ (forall s w',
        url = JString s -> s <> "" ->
        existsb (fun ext => includes (toLowerCase s) ext) imageExtensions = false ->
        head_api s w = (HeadRejects, w') ->
        isValidImageUrl head_api url w = (Ret false, w', [EvHead s HeadRejects])).
Proof.
  split.
  - destruct (isValidImageUrl_run url w) as (b & w' & t & Hrun & _ & Hrej).
    exists b, w', t. split; assumption.
  - intros s w' -> Hne Hext Hhead.
    rewrite (isValidImageUrl_first_probe s w Hne Hext false).
    + rewrite Hhead. reflexivity.
    + rewrite Hhead. reflexivity.
Qed.

Lemma validateImageUrl_run (url : JsVal) (w : World) :
  exists b w' t,
    validateImageUrl head_api url w = (Ret b, w', t)
    /\ forallb isHead t = true.
Proof.
  unfold validateImageUrl.
  destruct (negb (truthy url) || negb (String.eqb (typeof url) "string")).
  { exists false, w, []; split; reflexivity. }
  cbv zeta. destruct (existsb _ cityImageExtensions).
  { destruct (endsWith _ ".svg"); eexists _, w, []; split; reflexivity. }
  unfold bind. rewrite probe_eq.
  destruct (head_api (toText url) w) as [reply w1]; cbn [fst snd].
  destruct (probeOutcome reply) as [b|];
    eexists _, _, _; split; reflexivity.
Qed.

(** C10.  A value that is not a non-empty string is turned down at once
    by both classifiers: the answer is [false], nothing is raised and no
    request is issued. *)
Theorem classifier_rejects_non_strings (url : JsVal) (w : World) :
  (forall s, url = JString s -> s = "") ->
  isValidImageUrl head_api url w = (Ret false, w, [])
  /\ validateImageUrl head_api url w = (Ret false, w, []).
Proof.
  intros Hnot. destruct url as [| |b|z|s|elems|fields];
    try (split; reflexivity).
  - unfold isValidImageUrl, validateImageUrl.
    change (String.eqb (typeof (JBool b)) "string") with false.
    rewrite orb_true_r. split; reflexivity.
  - unfold isValidImageUrl, validateImageUrl.
    change (String.eqb (typeof (JNumber z)) "string") with false.
    rewrite orb_true_r. split; reflexivity.
  - rewrite (Hnot s eq_refl). split; reflexivity.
Qed.

End Classifier.

(* ===================================================================== *)
(** * The discovery loop *)
(* ===================================================================== *)

Lemma heads_no_queries (t : list Event) :
  forallb isHead t = true -> searchQueries t = [].
Proof.
  induction t as [|[q r|u r] t IH]; simpl; intros H;
    [reflexivity | discriminate | exact (IH H)].
Qed.

Lemma searchQueries_app (t1 t2 : list Event) :
  searchQueries (t1 ++ t2) = searchQueries t1 ++ searchQueries t2.
Proof. unfold searchQueries. apply omap_app. Qed.

Section Discovery.

Context {World : Type}.
Variable search_api : string -> World -> SearchReply * World.
Variable head_api : string -> World -> HeadReply * World.

Lemma isValidImageUrl_heads (url : JsVal) (w : World) :
  forallb isHead (isValidImageUrl head_api url w).2 = true.
Proof.
  destruct (isValidImageUrl_run head_api url w) as (b & w' & t & -> & Hall & _).
  cbn [snd]. apply forallb_forall. intros e He.
  rewrite List.Forall_forall in Hall. destruct (Hall e He) as [r ->]. reflexivity.
Qed.

Lemma evalItem_rejected type name country item r (w : World) :
  filterStages type name country item = Ret (Rejected r) ->
  evalItem head_api type name country item w = (Ret Continue, w, []).
Proof. unfold evalItem. intros ->. reflexivity. Qed.

Lemma evalItem_throws type name country item e (w : World) :
  filterStages type name country item = Throw e ->
  evalItem head_api type name country item w = (Throw e, w, []).
Proof. unfold evalItem. intros ->. reflexivity. Qed.

Lemma evalItem_survives type name country item imageUrl (w w' : World) b t :
  filterStages type name country item = Ret (Survives imageUrl) ->
  isValidImageUrl head_api (JString imageUrl) w = (Ret b, w', t) ->
  evalItem head_api type name country item w
  = (Ret (if b then Return imageUrl else Continue), w', t).
Proof.
  unfold evalItem. intros -> Hrun. unfold bind. rewrite Hrun.
  destruct b; cbn; rewrite app_nil_r; reflexivity.
Qed.

Lemma evalItem_heads type name country item (w : World) :
  forallb isHead (evalItem head_api type name country item w).2 = true.
Proof.
  destruct (filterStages type name country item) as [[r|imageUrl]|e] eqn:Hf.
  - rewrite (evalItem_rejected _ _ _ _ _ w Hf). reflexivity.
  - pose proof (isValidImageUrl_heads (JString imageUrl) w) as Hh.
    destruct (isValidImageUrl_run head_api (JString imageUrl) w)
      as (b & w' & t & Hrun & _).
    rewrite Hrun in Hh.
    rewrite (evalItem_survives _ _ _ _ _ w w' b t Hf Hrun). exact Hh.
  - rewrite (evalItem_throws _ _ _ _ _ w Hf). reflexivity.
Qed.

Lemma forItems_cons type name country item rest (w : World) :
  forItems head_api type name country (item :: rest) w
  = match evalItem head_api type name country item w with
    | (Ret (Return imageUrl), w1, t1) => (Ret (Return imageUrl), w1, t1)
    | (Ret Continue, w1, t1) =>
        let '(r, w2, t2) := forItems head_api type name country rest w1 in
        (r, w2, t1 ++ t2)
    | (Throw e, w1, t1) => (Throw e, w1, t1)
    end.
Proof.
  cbn [forItems]. unfold bind.
  destruct (evalItem head_api type name country item w) as [[[[u|]|e] w1] t1];
    cbn; rewrite ?app_nil_r; reflexivity.
Qed.

Lemma forItems_heads type name country items (w : World) :
  forallb isHead (forItems head_api type name country items w).2 = true.
Proof.
  revert w. induction items as [|item rest IH]; intros w; [reflexivity|].
  rewrite forItems_cons.
  pose proof (evalItem_heads type name country item w) as Hh.
  destruct (evalItem head_api type name country item w) as [[[[u|]|e] w1] t1];
    cbn [snd] in Hh |- *; try exact Hh.
  specialize (IH w1).
  destruct (forItems head_api type name country rest w1) as [[r w2] t2].
  cbn [snd] in IH |- *. rewrite forallb_app, Hh, IH. reflexivity.
Qed.

(** One turn of the strategy loop: exactly one search request, then only
    HEAD requests; whatever is raised inside is caught. *)
Lemma tryStrategy_run type name country strategy (w : World) :
  exists step w' t,
    tryStrategy search_api head_api type name country strategy w
    = (Ret step, w',
       EvSearch (query strategy) (search_api (query strategy) w).1 :: t)
    /\ forallb isHead t = true.
Proof.
  unfold tryStrategy, try_catch, bind, fetchItems.
  destruct (search_api (query strategy) w) as [reply w1]; cbn [fst].
  destruct reply as [|status| | |[|items|]];
    try (eexists _, _, _; split; [reflexivity|reflexivity]).
  destruct items as [|item rest];
    [eexists _, _, _; split; reflexivity|].
  pose proof (forItems_heads type name country (item :: rest) w1) as Hh.
  destruct (forItems head_api type name country (item :: rest) w1)
    as [[[step|e] w2] t2]; cbn [snd] in Hh.
  - eexists _, _, _; split; [reflexivity|exact Hh].
  - eexists _, _, _; split; [cbn; rewrite app_nil_r; reflexivity|exact Hh].
Qed.

Lemma tryStrategy_forfeits type name country strategy (w : World) :
  forfeits (search_api (query strategy) w).1 = true ->
  tryStrategy search_api head_api type name country strategy w
  = (Ret Continue, (search_api (query strategy) w).2,
     [EvSearch (query strategy) (search_api (query strategy) w).1]).
Proof.
  unfold tryStrategy, try_catch, bind, fetchItems.
  destruct (search_api (query strategy) w) as [reply w1]; cbn [fst snd].
  destruct reply as [|status| | |[|[|item rest]|]]; intros H;
    try discriminate H; reflexivity.
Qed.

Lemma executeStrategies_cons strategy rest type name country (w : World) :
  executeStrategies search_api head_api (strategy :: rest) type name country w
  = match tryStrategy search_api head_api type name country strategy w with
    | (Ret (Return imageUrl), w1, t1) => (Ret (Some imageUrl), w1, t1)
    | (Ret Continue, w1, t1) =>
        let '(r, w2, t2) :=
          executeStrategies search_api head_api rest type name country w1 in
        (r, w2, t1 ++ t2)
    | (Throw e, w1, t1) => (Throw e, w1, t1)
    end.
Proof.
  cbn [executeStrategies]. unfold bind.
  destruct (tryStrategy search_api head_api type name country strategy w)
    as [[[[u|]|e] w1] t1]; cbn; rewrite ?app_nil_r; reflexivity.
Qed.

(** The loop never raises; a [null] result means every strategy was
    queried, once and in order. *)
Lemma executeStrategies_run strategies type name country (w : World) :
  exists found w' t,
    executeStrategies search_api head_api strategies type name country w
    = (Ret found, w', t)
    /\ (found = None -> searchQueries t = map query strategies).
Proof.
  revert w. induction strategies as [|strategy rest IH]; intros w.
  - exists None, w, []. split; reflexivity.
  - rewrite executeStrategies_cons.
    destruct (tryStrategy_run type name country strategy w)
      as (step & w1 & t1 & -> & Hh).
    destruct step as [imageUrl|].
    + eexists _, _, _. split; [reflexivity|discriminate].
    + destruct (IH w1) as (found & w2 & t2 & -> & Hq).
      eexists _, _, _. split; [reflexivity|].
      intros Hnone. cbn [app map].
      change (searchQueries (EvSearch ?q ?r :: ?t))
        with (q :: searchQueries t).
      rewrite searchQueries_app, (heads_no_queries _ Hh), (Hq Hnone).
      reflexivity.
Qed.



Lemma executeStrategies_forfeit strategy rest type name country (w : World) :
  forfeits (search_api (query strategy) w).1 = true ->
  executeStrategies search_api head_api (strategy :: rest) type name country w
  = let '(found, w2, t) :=
      executeStrategies search_api head_api rest type name country
        (search_api (query strategy) w).2 in
    (found, w2,
     EvSearch (query strategy) (search_api (query strategy) w).1 :: t).
Proof.
  intros Hf. rewrite executeStrategies_cons.
  rewrite (tryStrategy_forfeits _ _ _ _ _ Hf). reflexivity.
Qed.

(** C2.  [executeStrategies] is total and never raises, whatever the
    provider and the probed hosts answer and whatever the name: it returns
    a URL or [null].  A provider reply that fails (transport error,
    non-success status, malformed or empty payload) costs the strategy its
    turn and the loop goes on with the next strategy; so does anything
    raised while a strategy's candidates are processed: each turn ends in a
    returned URL or in the run of the remaining strategies.  A [null] result
    means that every strategy was queried, once and in order; and it is the
    result when every provider call fails. *)
Theorem discovery_total_and_resilient strategies type name country (w : World) :
  (exists found w' t,
     executeStrategies search_api head_api strategies type name country w
     = (Ret found, w', t)
     /\ (found = None -> searchQueries t = map query strategies))
  /\ (forall strategy rest,
        strategies = strategy :: rest ->
        forfeits (search_api (query strategy) w).1 = true ->
        executeStrategies search_api head_api strategies type name country w
        = let '(found, w2, t) :=
            executeStrategies search_api head_api rest type name country
              (search_api (query strategy) w).2 in
          (found, w2,
           EvSearch (query strategy) (search_api (query strategy) w).1 :: t))
  /\ (forall strategy rest,
        strategies = strategy :: rest ->
        exists step w1 t1,
          tryStrategy search_api head_api type name country strategy w
          = (Ret step, w1, t1)
          /\ executeStrategies search_api head_api strategies type name country w
             = match step with
               | Return imageUrl => (Ret (Some imageUrl), w1, t1)
               | Continue =>
                   let '(found, w2, t2) :=
                     executeStrategies search_api head_api rest type name
                       country w1 in
                   (found, w2, t1 ++ t2)
               end)
  /\ ((forall q w0, forfeits (search_api q w0).1 = true) ->
      exists w' t,
        executeStrategies search_api head_api strategies type name country w
        = (Ret None, w', t)
        /\ searchQueries t = map query strategies
        /\ length t = length strategies).
Proof.
  split; [apply executeStrategies_run|]. split; [|split].
  - intros strategy rest -> Hf. apply executeStrategies_forfeit, Hf.
  - intros strategy rest ->.
    destruct (tryStrategy_run type name country strategy w)
      as (step & w1 & t1 & Hturn & _).
    eexists step, w1, _. split; [exact Hturn|].
    rewrite executeStrategies_cons, Hturn. destruct step; reflexivity.
  - intros Hall. revert w.
    induction strategies as [|strategy rest IH]; intros w.
    + exists w, []. repeat split.
    + rewrite (executeStrategies_forfeit _ _ _ _ _ _ (Hall _ w)).
      destruct (IH (search_api (query strategy) w).2) as (w' & t & -> & Hq & Hl).
      eexists _, _. split; [reflexivity|]. split.
      * change (searchQueries (EvSearch ?q ?r :: ?t))
          with (q :: searchQueries t).
        rewrite Hq. reflexivity.
      * simpl. rewrite Hl. reflexivity.
Qed.

End Discovery.

(* ===================================================================== *)
(** * The filter stages *)
(* ===================================================================== *)

Section Filters.

Lemma name_truthy (name : string) : name <> "" -> String.eqb name "" = false.
Proof. intros H. apply String.eqb_neq, H. Qed.










End Filters.

(* ===================================================================== *)
(** * Searches that cannot succeed, missing preconditions, degraded mode *)
(* ===================================================================== *)

Section Services.

Context {World : Type}.
Variable search_api : string -> World -> SearchReply * World.
Variable head_api : string -> World -> HeadReply * World.






Lemma executeStrategies_first_query strategy rest type name country (w : World) :
  exists found w' t,
    executeStrategies search_api head_api (strategy :: rest) type name country w
    = (Ret found, w',
       EvSearch (query strategy) (search_api (query strategy) w).1 :: t).
Proof.
  rewrite executeStrategies_cons.
  destruct (tryStrategy_run search_api head_api type name country strategy w)
    as (step & w1 & t1 & -> & _).
  destruct step as [imageUrl|]; [eexists _, _, _; reflexivity|].
  destruct (executeStrategies_run search_api head_api rest type name country w1)
    as (found & w2 & t2 & -> & _).
  eexists _, _, _. reflexivity.
Qed.

(** C5 (as amended).  The service checks no precondition on the name: for
    every name, the empty one included, [searchCityImage] and
    [searchUniversityImage] build their five strategies and open with the
    first strategy's query, without raising; and for the empty name the
    location stage lets every candidate through. *)
Theorem name_is_not_checked (entityName country : string) (w : World) :
  length (cityStrategies entityName country) = 5%nat
  /\ length (universityStrategies entityName) = 5%nat
  /\ (exists strategy found w' t,
        head (cityStrategies entityName country) = Some strategy
        /\ searchCityImage search_api head_api entityName country w
           = (Ret found, w',
              EvSearch (query strategy) (search_api (query strategy) w).1 :: t))
  /\ (exists strategy found w' t,
        head (universityStrategies entityName) = Some strategy
        /\ searchUniversityImage search_api head_api entityName w
           = (Ret found, w',
              EvSearch (query strategy) (search_api (query strategy) w).1 :: t))
  /\ (forall type allText, locationStage type "" country allText = None).
Proof.
  split; [reflexivity|]. split; [reflexivity|]. split; [|split].
  - unfold searchCityImage, cityStrategies.
    match goal with
    | |- context [executeStrategies _ _ (?s :: ?rest) ?ty ?n ?c w] =>
        destruct (executeStrategies_first_query s rest ty n c w)
          as (found & w' & t & Hrun);
        exists s, found, w', t; split; [reflexivity|exact Hrun]
    end.
  - unfold searchUniversityImage, universityStrategies.
    match goal with
    | |- context [executeStrategies _ _ (?s :: ?rest) ?ty ?n ?c w] =>
        destruct (executeStrategies_first_query s rest ty n c w)
          as (found & w' & t & Hrun);
        exists s, found, w', t; split; [reflexivity|exact Hrun]
    end.
  - intros type allText. reflexivity.
Qed.

(** C8.  Degraded mode.  Without an image search service, a record whose
    [city_image] is truthy has that value checked by [validateImageUrl]
    alone: the step issues the validator's requests and no search.  When
    the validator rejects, the result is the record with [city_image] set
    to the empty string and every other field as it was; when it accepts,
    the record is returned as it is. *)
Theorem degraded_mode_substitution city country
    (validatedData : gmap string JsVal) (url : JsVal) (w w' : World) b t :
  validatedData !! "city_image" = Some url ->
  truthy url = true ->
  validateImageUrl head_api url w = (Ret b, w', t) ->
  let result :=
    if b then validatedData else <["city_image" := JString ""]> validatedData in
  extractCityData_image search_api head_api false city country validatedData w
  = (Ret result, w', t)
  /\ searchQueries t = []
  /\ (b = false -> result !! "city_image" = Some (JString ""))
  /\ (forall field, field <> "city_image" ->
        result !! field = validatedData !! field).
Proof.
  intros Hfield Htruthy Hrun result. split; [|split; [|split]].
  - unfold extractCityData_image. rewrite Hfield. cbn [default from_option id].
    rewrite Htruthy. unfold bind. rewrite Hrun. subst result.
    destruct b; cbn; rewrite app_nil_r; reflexivity.
  - apply heads_no_queries.
    destruct (validateImageUrl_run head_api url w) as (b' & w1 & t1 & Hrun' & Hh).
    rewrite Hrun in Hrun'. injection Hrun' as _ _ ->. exact Hh.
  - intros ->. subst result. apply lookup_insert_eq.
  - intros field Hne. subst result. destruct b; [reflexivity|].
    apply lookup_insert_ne. congruence.
Qed.

End Services.

(* ===================================================================== *)
(** * The theorems at concrete inputs *)
(* ===================================================================== *)


Lemma discovery_total_and_resilient_witness :
  (forall q w0, forfeits (Scenario.down q w0).1 = true)
  /\ forfeits (Scenario.down (query Scenario.first) 0%nat).1 = true
  /\ exists w' t,
       executeStrategies Scenario.down Scenario.unreachable
         [Scenario.first; Scenario.second] City "Example City" "Canada" 0%nat
       = (Ret None, w', t)
       /\ searchQueries t = map query [Scenario.first; Scenario.second]
       /\ length t = 2%nat.
Proof.
  assert (Hdown : forall q w0, forfeits (Scenario.down q w0).1 = true)
    by (intros q w0; reflexivity).
  split; [exact Hdown|]. split; [reflexivity|].
  exact (proj2 (proj2 (proj2 (discovery_total_and_resilient Scenario.down
                                Scenario.unreachable
                                [Scenario.first; Scenario.second]
                                City "Example City" "Canada" 0%nat))) Hdown).
Defined.

Lemma classifier_extension_and_html_witness :
  (In ".png" imageExtensions /\ ".png" <> ".svg"
   /\ endsWith (toLowerCase "https://example.com/a/Skyline.PNG") ".png" = true
   /\ isValidImageUrl Scenario.unreachable
        (JString "https://example.com/a/Skyline.PNG") 0%nat
      = (Ret true, 0%nat, []))
  /\ ("https://example.com/gallery" <> ""
      /\ startsWith "text/html; charset=utf-8" "text/html" = true
      /\ isValidImageUrl Scenario.htmlPage
           (JString "https://example.com/gallery") 0%nat
         = (Ret false, 1%nat,
            [EvHead "https://example.com/gallery"
               (HeadResponse (Some "text/html; charset=utf-8"))])).
Proof.
  assert (Hin : In ".png" imageExtensions) by (vm_compute; tauto).
  assert (Hne : ".png" <> ".svg") by discriminate.
  assert (Hends : endsWith (toLowerCase "https://example.com/a/Skyline.PNG")
                    ".png" = true) by (vm_compute; reflexivity).
  assert (Hurl : "https://example.com/gallery" <> "") by discriminate.
  assert (Hct : startsWith "text/html; charset=utf-8" "text/html" = true)
    by (vm_compute; reflexivity).
  split; [split; [exact Hin|split; [exact Hne|split; [exact Hends|]]]
         |split; [exact Hurl|split; [exact Hct|]]].
  - exact (proj1 (proj2 (classifier_extension_and_html Scenario.unreachable
                           "https://example.com/a/Skyline.PNG" 0%nat))
             ".png" Hin Hne Hends).
  - refine (proj2 (proj2 (classifier_extension_and_html Scenario.htmlPage
                            "https://example.com/gallery" 0%nat))
              "text/html; charset=utf-8" 1%nat Hurl _ _ Hct);
      vm_compute; reflexivity.
Defined.

Lemma classifier_probe_failure_witness :
  Scenario.unreachable "https://cdn.example.com/hero" 0%nat = (HeadRejects, 1%nat)
  /\ isValidImageUrl Scenario.unreachable
       (JString "https://cdn.example.com/hero") 0%nat
     = (Ret false, 1%nat, [EvHead "https://cdn.example.com/hero" HeadRejects]).
Proof.
  split; [reflexivity|].
  refine (proj2 (classifier_probe_failure Scenario.unreachable
                   (JString "https://cdn.example.com/hero") 0%nat)
            "https://cdn.example.com/hero" 1%nat eq_refl _ _ eq_refl);
    [discriminate | vm_compute; reflexivity].
Defined.

Lemma classifier_rejects_non_strings_witness :
  (forall s, JNumber 42 = JString s -> s = "")
  /\ isValidImageUrl Scenario.jpegServer (JNumber 42) 0%nat = (Ret false, 0%nat, [])
  /\ validateImageUrl Scenario.jpegServer (JNumber 42) 0%nat = (Ret false, 0%nat, []).
Proof.
  assert (H : forall s, JNumber 42 = JString s -> s = "") by discriminate.
  split; [exact H|].
  exact (classifier_rejects_non_strings Scenario.jpegServer (JNumber 42) 0%nat H).
Defined.



Lemma degraded_mode_substitution_witness :
  Scenario.record !! "city_image" = Some Scenario.cityPage
  /\ truthy Scenario.cityPage = true
  /\ validateImageUrl Scenario.htmlPage Scenario.cityPage 0%nat
     = (Ret false, 1%nat,
        [EvHead "https://example.com/example-city"
           (HeadResponse (Some "text/html; charset=utf-8"))])
  /\ extractCityData_image Scenario.down Scenario.htmlPage false
       "Example City" "Canada" Scenario.record 0%nat
     = (Ret (<["city_image" := JString ""]> Scenario.record), 1%nat,
        [EvHead "https://example.com/example-city"
           (HeadResponse (Some "text/html; charset=utf-8"))]).
Proof.
  assert (H1 : Scenario.record !! "city_image" = Some Scenario.cityPage)
    by (vm_compute; reflexivity).
  assert (H2 : truthy Scenario.cityPage = true) by reflexivity.
  assert (H3 : validateImageUrl Scenario.htmlPage Scenario.cityPage 0%nat
               = (Ret false, 1%nat,
                  [EvHead "https://example.com/example-city"
                     (HeadResponse (Some "text/html; charset=utf-8"))]))
    by (vm_compute; reflexivity).
  split; [exact H1|]. split; [exact H2|]. split; [exact H3|].
  exact (proj1 (degraded_mode_substitution Scenario.down
                  Scenario.htmlPage "Example City" "Canada" Scenario.record
                  Scenario.cityPage 0%nat 1%nat false _ H1 H2 H3)).
Defined.


(* ===================================================================== *)
(** * Where the code departs from the specification *)
(* ===================================================================== *)

(** C3 as stated fails: the path of this URL ends in ".jpg", yet the
    classifier turns it down, with no request, because the URL as a whole
    ends in ".svg". *)
Lemma classifier_path_counterexample :
  spec_pathEndsIn "https://example.com/a.jpg?ref=.svg" ".jpg" = true
  /\ isValidImageUrl Scenario.jpegServer
       (JString "https://example.com/a.jpg?ref=.svg") 0%nat
     = (Ret false, 0%nat, []).
Proof. split; vm_compute; reflexivity. Qed.

(** C5 as stated fails: with an empty name (and with a blank one) the
    search is not refused; the provider is queried and its candidate is
    returned. *)
Lemma empty_name_counterexample :
  searchCityImage Scenario.generous Scenario.unreachable "" "" 0%nat
  = (Ret (Some Scenario.skylineUrl), 1%nat,
     [EvSearch (quoted "" +:+ " city skyline many buildings cityscape photo -map -weather -radar -person -people -crowd -pedestrian -tourist -visitor -walking -standing -single -one -frame -framed -shirt -merchandise -print -rendered -mockup -template")
        (SearchData (ItemsArray [Some Scenario.skyline]))])
  /\ (searchCityImage Scenario.generous Scenario.unreachable " " "" 0%nat).1
     = (Ret (Some Scenario.skylineUrl), 1%nat).
Proof. split; vm_compute; reflexivity. Qed.




(* ===================================================================== *)
(** * Further properties of the classifiers *)
(* ===================================================================== *)

Section ClassifierSoundness.

Context {World : Type}.
Variable head_api : string -> World -> HeadReply * World.

Lemma judge_true (header : option string) :
  judgeContentType header = Return true ->
  exists contentType,
    header = Some contentType /\ startsWith contentType "image/" = true.
Proof.
  unfold judgeContentType. destruct header as [contentType|].
  - change (default "" (Some contentType)) with contentType. cbv zeta.
    destruct (startsWith contentType "image/") eqn:Himg.
    + intros _. exists contentType. split; [reflexivity|exact Himg].
    + destruct (includes contentType "text/html"
                || includes contentType "application/"); discriminate.
  - cbn. discriminate.
Qed.

Lemma probeOutcome_true (reply : HeadReply) :
  probeOutcome reply = Return true ->
  exists contentType,
    reply = HeadResponse (Some contentType)
    /\ startsWith contentType "image/" = true.
Proof.
  destruct reply as [|header]; cbn [probeOutcome]; [discriminate|].
  intros H. destruct (judge_true header H) as (ct & -> & Hct).
  exists ct. split; [reflexivity|exact Hct].
Qed.

(** The run of [isValidImageUrl] on a non-empty URL without a known
    extension, request by request. *)
Lemma isValidImageUrl_probed (url : string) (w : World) :
  url <> "" ->
  existsb (fun ext => includes (toLowerCase url) ext) imageExtensions = false ->
  isValidImageUrl head_api (JString url) w
  = let first := head_api url w in
    match probeOutcome first.1 with
    | Return b => (Ret b, first.2, [EvHead url first.1])
    | Continue =>
        if existsb (fun p => includes (toLowerCase url) p) imagePathPatterns
           || existsb (fun p => includes (toLowerCase url) p) imageCdnPatterns
        then
          let last := head_api url first.2 in
          (Ret match probeOutcome last.1 with
               | Return b => b
               | Continue => false
               end,
           last.2, [EvHead url first.1; EvHead url last.1])
        else (Ret false, first.2, [EvHead url first.1])
    end.
Proof.
  intros Hne Hext. destruct url as [|c s]; [congruence|].
  unfold isValidImageUrl; guard_passes. rewrite Hext. cbv zeta.
  destruct (existsb _ imagePathPatterns || existsb _ imageCdnPatterns).
  - unfold bind at 1. rewrite probe_eq.
    destruct (probeOutcome (head_api (String c s) w).1) as [b|]; [reflexivity|].
    unfold bind. rewrite probe_eq.
    destruct (probeOutcome (head_api (String c s) (head_api (String c s) w).2).1);
      reflexivity.
  - unfold bind at 1. cbn [ret]. unfold bind. rewrite probe_eq.
    destruct (probeOutcome (head_api (String c s) w).1); reflexivity.
Qed.

Lemma guard_rejects (url : JsVal) :
  negb (truthy url) || negb (String.eqb (typeof url) "string") = false ->
  exists s, url = JString s /\ s <> "".
Proof.
  destruct url as [| |b|z|s|elems|fields]; cbn; try discriminate.
  - rewrite orb_true_r. discriminate.
  - rewrite orb_true_r. discriminate.
  - rewrite orb_false_r, negb_false_iff, negb_true_iff.
    intros H. exists s. split; [reflexivity|]. apply String.eqb_neq, H.
Qed.

(** X3.  [isValidImageUrl] answers [true] only for a non-empty string,
    and only on one of two grounds: the URL contains a known image
    extension and does not end in ".svg", in which case nothing was
    requested; or the last HEAD reply of the run declared a content type
    that starts with "image/". *)
Theorem isValidImageUrl_accepts_only_images (url : JsVal) (w w' : World) t :
  isValidImageUrl head_api url w = (Ret true, w', t) ->
  exists s,
    url = JString s /\ s <> ""
    /\ ((existsb (fun ext => includes (toLowerCase s) ext) imageExtensions = true
         /\ endsWith (toLowerCase s) ".svg" = false /\ t = [] /\ w' = w)
        \/ (existsb (fun ext => includes (toLowerCase s) ext) imageExtensions = false
            /\ exists earlier contentType,
                 t = earlier ++ [EvHead s (HeadResponse (Some contentType))]
                 /\ startsWith contentType "image/" = true)).
Proof.
  intros Hrun.
  destruct (negb (truthy url) || negb (String.eqb (typeof url) "string")) eqn:Hg.
  { unfold isValidImageUrl in Hrun. rewrite Hg in Hrun. discriminate. }
  destruct (guard_rejects url Hg) as (s & -> & Hne).
  exists s. split; [reflexivity|]. split; [exact Hne|].
  destruct (existsb (fun ext => includes (toLowerCase s) ext) imageExtensions)
    eqn:Hext.
  - left. rewrite (isValidImageUrl_extension head_api s w Hext) in Hrun.
    injection Hrun as Hsvg <-. apply negb_true_iff in Hsvg. auto.
  - right. split; [reflexivity|].
    rewrite (isValidImageUrl_probed s w Hne Hext) in Hrun. cbv zeta in Hrun.
    destruct (probeOutcome (head_api s w).1) as [b|] eqn:Hfirst.
    + injection Hrun as -> _ <-.
      destruct (probeOutcome_true _ Hfirst) as (ct & -> & Hct).
      exists [], ct. split; [reflexivity|exact Hct].
    + destruct (existsb _ imagePathPatterns || existsb _ imageCdnPatterns);
        [|discriminate].
      destruct (probeOutcome (head_api s (head_api s w).2).1) as [b|] eqn:Hlast;
        [|discriminate].
      injection Hrun as -> _ <-.
      destruct (probeOutcome_true _ Hlast) as (ct & -> & Hct).
      exists [EvHead s (head_api s w).1], ct. split; [reflexivity|exact Hct].
Qed.

(** X4.  [isValidImageUrl] issues at most two HEAD requests, all of them
    for the URL it was given; a second one only when that URL matches an
    image path or CDN pattern and the first reply was undecided. *)
Theorem isValidImageUrl_request_bound (url : JsVal) (w : World) :
  let t := (isValidImageUrl head_api url w).2 in
  (length t <= 2)%nat
  /\ Forall (fun e => exists reply, e = EvHead (toText url) reply) t
  /\ (length t = 2%nat ->
      (existsb (fun p => includes (toLowerCase (toText url)) p) imagePathPatterns
       || existsb (fun p => includes (toLowerCase (toText url)) p) imageCdnPatterns)
      = true
      /\ probeOutcome (head_api (toText url) w).1 = Continue).
Proof.
  cbv zeta. split; [|split].
  - destruct (negb (truthy url) || negb (String.eqb (typeof url) "string")) eqn:Hg.
    { unfold isValidImageUrl. rewrite Hg. cbn. lia. }
    destruct (guard_rejects url Hg) as (s & -> & Hne).
    destruct (existsb (fun ext => includes (toLowerCase s) ext) imageExtensions)
      eqn:Hext.
    + rewrite (isValidImageUrl_extension head_api s w Hext). cbn. lia.
    + rewrite (isValidImageUrl_probed s w Hne Hext). cbv zeta.
      repeat case_match; cbn; lia.
  - destruct (isValidImageUrl_run head_api url w) as (b & w' & t & -> & Hall & _).
    exact Hall.
  - destruct (negb (truthy url) || negb (String.eqb (typeof url) "string")) eqn:Hg.
    { unfold isValidImageUrl. rewrite Hg. cbn. discriminate. }
    destruct (guard_rejects url Hg) as (s & -> & Hne).
    change (toText (JString s)) with s.
    destruct (existsb (fun ext => includes (toLowerCase s) ext) imageExtensions)
      eqn:Hext.
    + rewrite (isValidImageUrl_extension head_api s w Hext). cbn. discriminate.
    + rewrite (isValidImageUrl_probed s w Hne Hext). cbv zeta.
      destruct (probeOutcome (head_api s w).1) as [b|]; [cbn; discriminate|].
      destruct (existsb _ imagePathPatterns || existsb _ imageCdnPatterns);
        [intros _; split; reflexivity|cbn; discriminate].
Qed.

End ClassifierSoundness.

Section ValidatorSoundness.

Context {World : Type}.
Variable head_api : string -> World -> HeadReply * World.

(** X5.  [CityService.validateImageUrl] issues at most one HEAD request.
    It answers [true] only for a non-empty string, and only when the URL
    contains one of its extensions and does not end in ".svg" (nothing is
    requested then), or when the reply to its one request declared a
    content type that starts with "image/". *)
Theorem validateImageUrl_accepts_only_images (url : JsVal) (w : World) :
  (length (validateImageUrl head_api url w).2 <= 1)%nat
  /\ forall w' t,
       validateImageUrl head_api url w = (Ret true, w', t) ->
       exists s,
         url = JString s /\ s <> ""
         /\ ((existsb (fun ext => includes (toLowerCase s) ext) cityImageExtensions
              = true
              /\ endsWith (toLowerCase s) ".svg" = false /\ t = [] /\ w' = w)
             \/ (exists contentType,
                   head_api s w = (HeadResponse (Some contentType), w')
                   /\ t = [EvHead s (HeadResponse (Some contentType))]
                   /\ startsWith contentType "image/" = true)).
Proof.
  unfold validateImageUrl.
  destruct (negb (truthy url) || negb (String.eqb (typeof url) "string")) eqn:Hg.
  { split; [cbn; lia|]. intros w' t H. discriminate. }
  destruct (guard_rejects url Hg) as (s & -> & Hne).
  change (toText (JString s)) with s. cbv zeta.
  destruct (existsb (fun ext => includes (toLowerCase s) ext) cityImageExtensions)
    eqn:Hext.
  - destruct (endsWith (toLowerCase s) ".svg") eqn:Hsvg;
      (split; [cbn; lia|]); intros w' t H; [discriminate|].
    injection H as <- <-. exists s. split; [reflexivity|]. split; [exact Hne|].
    left. auto.
  - unfold bind. rewrite probe_eq.
    destruct (head_api s w) as [reply w1] eqn:Hhead. cbn [fst snd].
    destruct (probeOutcome reply) as [b|] eqn:Hout;
      (split; [cbn; lia|]); intros w' t H; [|discriminate].
    injection H as -> <- <-.
    destruct (probeOutcome_true _ Hout) as (ct & -> & Hct).
    exists s. split; [reflexivity|]. split; [exact Hne|].
    right. exists ct. auto.
Qed.

End ValidatorSoundness.

(* ===================================================================== *)
(** * Further properties of the discovery loop *)
(* ===================================================================== *)



Section DiscoverySoundness.

Context {World : Type}.
Variable search_api : string -> World -> SearchReply * World.
Variable head_api : string -> World -> HeadReply * World.






End DiscoverySoundness.

(* ===================================================================== *)
(** * The JSON text of a model reply: properties *)
(* ===================================================================== *)

Section TextFacts.

Import Text.

Lemma prefix_nil_r (p : string) : p <> "" -> String.prefix p "" = false.
Proof. destruct p; [congruence|reflexivity]. Qed.

Lemma prefix_trans (a b c : string) :
  String.prefix a b = true -> String.prefix b c = true ->
  String.prefix a c = true.
Proof.
  revert b c. induction a as [|x a IH]; intros b c;
    [intros _ _; destruct c; reflexivity|].
  destruct b as [|y b]; [discriminate|]. destruct c as [|z c]; [discriminate|].
  rewrite !prefix_cons.
  destruct (Ascii.ascii_dec x y) as [->|]; [|discriminate].
  destruct (Ascii.ascii_dec y z) as [->|]; [|discriminate].
  destruct (Ascii.ascii_dec z z); [apply IH|congruence].
Qed.

Lemma prefix_same_head (c : Ascii.ascii) (p s : string) :
  String.prefix (String c p) (String c s) = String.prefix p s.
Proof.
  rewrite prefix_cons. destruct (Ascii.ascii_dec c c); [reflexivity|congruence].
Qed.

Lemma before_unfold (s sep : string) :
  before s sep
  = if String.prefix sep s then ""
    else match s with
         | EmptyString => EmptyString
         | String c s' => String c (before s' sep)
         end.
Proof. destruct s; reflexivity. Qed.

Lemma after_unfold (s sep : string) :
  after s sep
  = if String.prefix sep s then Some (drop (String.length sep) s)
    else match s with
         | EmptyString => None
         | String _ s' => after s' sep
         end.
Proof. destruct s; reflexivity. Qed.

Lemma includes_unfold (s sub : string) :
  includes s sub
  = String.prefix sub s
    || match s with
       | EmptyString => false
       | String _ s' => includes s' sub
       end.
Proof. destruct s; reflexivity. Qed.

Lemma prefix_before (s sep : string) : String.prefix (before s sep) s = true.
Proof.
  induction s as [|c s IH]; rewrite before_unfold;
    destruct (String.prefix sep _); try reflexivity.
  rewrite prefix_same_head. exact IH.
Qed.

Lemma before_free (s sep : string) :
  sep <> "" -> includes (before s sep) sep = false.
Proof.
  intros Hsep. induction s as [|c s IH]; rewrite before_unfold.
  - destruct (String.prefix sep ""); rewrite includes_nil;
      apply prefix_nil_r, Hsep.
  - destruct (String.prefix sep (String c s)) eqn:Hp.
    + rewrite includes_nil. apply prefix_nil_r, Hsep.
    + rewrite includes_cons, IH, orb_false_r.
      destruct (String.prefix sep (String c (before s sep))) eqn:Hq;
        [|reflexivity].
      rewrite <- Hp. symmetry. apply (prefix_trans _ _ _ Hq).
      rewrite prefix_same_head. apply prefix_before.
Qed.

Lemma includes_after (s sep : string) :
  includes s sep = true -> exists rest, after s sep = Some rest.
Proof.
  induction s as [|c s IH]; rewrite includes_unfold, after_unfold;
    destruct (String.prefix sep _); cbn [orb]; eauto; discriminate.
Qed.

Lemma includes_nonempty (s sep : string) :
  sep <> "" -> includes s sep = true -> s <> "".
Proof.
  intros Hsep H ->. rewrite includes_nil, (prefix_nil_r _ Hsep) in H.
  discriminate.
Qed.

Lemma split_first (s sep : string) :
  element (splitString s sep) 0 = Ret (before s sep).
Proof. unfold splitString. destruct (String.length s); reflexivity. Qed.

Lemma split_second (s sep rest : string) :
  s <> "" -> after s sep = Some rest ->
  element (splitString s sep) 1 = Ret (before rest sep).
Proof.
  intros Hne Hafter. unfold splitString.
  destruct s as [|c s]; [congruence|].
  cbn [String.length splitFuel]. rewrite Hafter.
  destruct (String.length s); reflexivity.
Qed.

Lemma includes_suffix_trimStart (s x : string) :
  includes (trimStart s) x = true -> includes s x = true.
Proof.
  induction s as [|c s IH]; [auto|]. cbn [trimStart].
  destruct (isWhiteSpace c); [|auto].
  intros H. rewrite includes_cons, (IH H). apply orb_true_r.
Qed.

Lemma prefix_trimEnd (s : string) : String.prefix (trimEnd s) s = true.
Proof.
  induction s as [|c s IH]; [reflexivity|]. cbn [trimEnd].
  destruct (trimEnd s) as [|d kept].
  - destruct (isWhiteSpace c); [reflexivity|].
    rewrite prefix_same_head. destruct s; reflexivity.
  - rewrite prefix_same_head. exact IH.
Qed.

Lemma includes_of_prefix (p s x : string) :
  String.prefix p s = true -> includes p x = true -> includes s x = true.
Proof.
  revert s. induction p as [|c p IH]; intros s Hp Hx.
  - rewrite includes_nil in Hx. destruct x; [|discriminate].
    destruct s; reflexivity.
  - destruct s as [|d s]; [discriminate|].
    rewrite prefix_cons in Hp.
    destruct (Ascii.ascii_dec c d) as [->|]; [|discriminate].
    rewrite includes_cons in Hx |- *.
    apply orb_true_iff in Hx as [Hx|Hx].
    + rewrite (prefix_trans x (String d p) (String d s) Hx); [reflexivity|].
      rewrite prefix_same_head. exact Hp.
    + rewrite (IH s Hp Hx). apply orb_true_r.
Qed.

Lemma includes_trim (s x : string) :
  includes (trim s) x = true -> includes s x = true.
Proof.
  unfold trim. intros H. apply includes_suffix_trimStart.
  exact (includes_of_prefix _ _ _ (prefix_trimEnd _) H).
Qed.

(** An occurrence of a text is an occurrence of each of its beginnings. *)
Lemma includes_shorter (s a b : string) :
  String.prefix a b = true -> includes s b = true -> includes s a = true.
Proof.
  intros Hab. induction s as [|c s IH].
  - rewrite !includes_nil. intros H. exact (prefix_trans _ _ _ Hab H).
  - rewrite !includes_cons. intros H. apply orb_true_iff in H as [H|H].
    + rewrite (prefix_trans _ _ _ Hab H). reflexivity.
    + rewrite (IH H). apply orb_true_r.
Qed.

(** The text inside the first block opened by [opening]. *)
Lemma fenced_block (text opening : string) :
  opening <> "" -> includes text opening = true ->
  exists rest,
    after text opening = Some rest
    /\ match element (splitString text opening) 1 with
       | Ret fenced =>
           match element (splitString fenced fence) 0 with
           | Ret inner => Ret (trim inner)
           | Throw e => Throw e
           end
       | Throw e => Throw e
       end
       = Ret (trim (before (before rest opening) fence)).
Proof.
  intros Hop Hinc. destruct (includes_after _ _ Hinc) as [rest Hafter].
  exists rest. split; [exact Hafter|].
  rewrite (split_second text opening rest
             (includes_nonempty _ _ Hop Hinc) Hafter).
  rewrite split_first. reflexivity.
Qed.

(** X6.  The clean-up of the model's reply never raises.  A reply without
    a Markdown fence is returned as it is; from a reply with one, the text
    that comes out contains no fence. *)
Theorem jsonText_fences (responseText : string) :
  exists cleaned,
    jsonText responseText = Ret cleaned
    /\ (includes responseText fence = false -> cleaned = responseText)
    /\ (includes responseText fence = true -> includes cleaned fence = false).
Proof.
  assert (Hfree : forall s, includes (trim (before s fence)) fence = false).
  { intros s. destruct (includes (trim (before s fence)) fence) eqn:E;
      [|reflexivity].
    apply includes_trim in E. rewrite before_free in E; [discriminate|].
    discriminate. }
  unfold jsonText.
  destruct (includes responseText jsonFence) eqn:Hjson.
  - destruct (fenced_block responseText jsonFence) as (rest & _ & ->);
      [discriminate|exact Hjson|].
    eexists. split; [reflexivity|]. split; [|intros _; apply Hfree].
    intros Hno. exfalso.
    rewrite (includes_shorter responseText fence jsonFence eq_refl Hjson) in Hno.
    discriminate.
  - destruct (includes responseText fence) eqn:Hfence.
    + destruct (fenced_block responseText fence) as (rest & _ & ->);
        [discriminate|exact Hfence|].
      eexists. split; [reflexivity|]. split; [discriminate|].
      intros _. apply Hfree.
    + eexists. split; [reflexivity|]. split; [reflexivity|discriminate].
Qed.

Lemma append_nil_l (s : string) : "" +:+ s = s.
Proof. reflexivity. Qed.

Lemma append_cons (c : Ascii.ascii) (a b : string) :
  String c a +:+ b = String c (a +:+ b).
Proof. reflexivity. Qed.

Lemma prefix_app (p rest : string) : String.prefix p (p +:+ rest) = true.
Proof.
  induction p as [|c p IH]; [destruct rest; reflexivity|].
  rewrite append_cons, prefix_same_head. exact IH.
Qed.

Lemma drop_app (p rest : string) : drop (String.length p) (p +:+ rest) = rest.
Proof. induction p as [|c p IH]; [reflexivity|exact IH]. Qed.

(** A text without back quote: its first character, if any, is not one,
    and the rest has none. *)
Lemma tickless_cons (c : Ascii.ascii) (s : string) :
  includes (String c s) "`" = false ->
  c <> Ascii.ascii_of_nat 96 /\ includes s "`" = false.
Proof.
  rewrite includes_cons, orb_false_iff. intros [Hc Hs]. split; [|exact Hs].
  intros ->. rewrite prefix_same_head in Hc. destruct s; discriminate.
Qed.

Lemma tick_no_prefix (c : Ascii.ascii) (sep s : string) :
  c <> Ascii.ascii_of_nat 96 ->
  String.prefix (String (Ascii.ascii_of_nat 96) sep) (String c s) = false.
Proof.
  intros Hc. rewrite prefix_cons.
  destruct (Ascii.ascii_dec (Ascii.ascii_of_nat 96) c); [congruence|reflexivity].
Qed.

Lemma tickless_no_prefix (sep s : string) :
  includes s "`" = false ->
  String.prefix (String (Ascii.ascii_of_nat 96) sep) s = false.
Proof.
  destruct s as [|c s]; [reflexivity|]. intros H.
  apply tick_no_prefix, (tickless_cons c s H).
Qed.

Lemma before_whole (s sep : string) :
  includes s "`" = false ->
  before s (String (Ascii.ascii_of_nat 96) sep) = s.
Proof.
  induction s as [|c s IH]; [reflexivity|]. intros H.
  destruct (tickless_cons c s H) as [Hc Hs].
  rewrite before_unfold, (tick_no_prefix c sep s Hc), (IH Hs). reflexivity.
Qed.

Lemma before_clean (pre sep rest : string) :
  includes pre "`" = false ->
  before (pre +:+ String (Ascii.ascii_of_nat 96) sep +:+ rest)
    (String (Ascii.ascii_of_nat 96) sep)
  = pre.
Proof.
  induction pre as [|c pre IH]; intros H.
  - rewrite append_nil_l, before_unfold, prefix_app. reflexivity.
  - destruct (tickless_cons c pre H) as [Hc Hs].
    rewrite append_cons, before_unfold, (tick_no_prefix c sep _ Hc), (IH Hs).
    reflexivity.
Qed.

Lemma after_clean (pre sep rest : string) :
  includes pre "`" = false ->
  after (pre +:+ String (Ascii.ascii_of_nat 96) sep +:+ rest)
    (String (Ascii.ascii_of_nat 96) sep)
  = Some rest.
Proof.
  induction pre as [|c pre IH]; intros H.
  - rewrite append_nil_l, after_unfold, prefix_app, drop_app. reflexivity.
  - destruct (tickless_cons c pre H) as [Hc Hs].
    rewrite append_cons, after_unfold, (tick_no_prefix c sep _ Hc).
    exact (IH Hs).
Qed.

Lemma after_includes (s sep rest : string) :
  after s sep = Some rest -> includes s sep = true.
Proof.
  induction s as [|c s IH]; rewrite after_unfold, includes_unfold;
    destruct (String.prefix sep _); cbn [orb]; auto; discriminate.
Qed.

(** Up to the next opening fence, a block body followed by its closing
    fence is the body alone or the whole of what follows. *)
Lemma before_next_opening (body post : string) :
  includes body "`" = false -> includes post "`" = false ->
  before (body +:+ fence +:+ post) jsonFence = body
  \/ before (body +:+ fence +:+ post) jsonFence = body +:+ fence +:+ post.
Proof.
  intros Hbody Hpost. induction body as [|c body IH].
  - rewrite append_nil_l.
    destruct (String.prefix jsonFence (fence +:+ post)) eqn:Hp.
    + left. rewrite before_unfold, Hp. reflexivity.
    + right. rewrite before_unfold, Hp.
      unfold fence, jsonFence. rewrite !append_cons, append_nil_l. f_equal.
      rewrite before_unfold, prefix_same_head, prefix_same_head.
      rewrite (tickless_no_prefix _ post Hpost). f_equal.
      rewrite before_unfold, prefix_same_head.
      rewrite (tickless_no_prefix _ post Hpost). f_equal.
      exact (before_whole post _ Hpost).
  - destruct (tickless_cons c body Hbody) as [Hc Hs].
    specialize (IH Hs). unfold jsonFence in IH |- *.
    rewrite append_cons, before_unfold, (tick_no_prefix c _ _ Hc).
    destruct IH as [-> | ->]; [left|right]; reflexivity.
Qed.

(** X7.  Round trip of a fenced reply.  When the prose before the block,
    the block's body and the prose after it contain no back quote, and
    the trimmed body begins and ends with ASCII characters, the clean-up
    of the reply that fences the body with "```json" and "```" is the
    body, trimmed. *)
Theorem jsonText_round_trip (pre body post : string) :
  asciiEnds (trim body) = true ->
  includes pre "`" = false ->
  includes body "`" = false ->
  includes post "`" = false ->
  jsonText (pre +:+ jsonFence +:+ body +:+ fence +:+ post) = Ret (trim body).
Proof.
  intros _ Hpre Hbody Hpost.
  pose proof (after_clean pre "``json" (body +:+ fence +:+ post) Hpre) as Hafter.
  change (String (Ascii.ascii_of_nat 96) "``json") with jsonFence in Hafter.
  unfold jsonText. rewrite (after_includes _ _ _ Hafter).
  destruct (fenced_block _ jsonFence ltac:(discriminate)
              (after_includes _ _ _ Hafter)) as (rest & Hrest & ->).
  rewrite Hafter in Hrest. injection Hrest as <-.
  pose proof (before_whole body "``" Hbody) as Hwhole.
  pose proof (before_clean body "``" post Hbody) as Hclean.
  change (String (Ascii.ascii_of_nat 96) "``") with fence in Hwhole, Hclean.
  destruct (before_next_opening body post Hbody Hpost) as [-> | ->].
  - rewrite Hwhole. reflexivity.
  - rewrite Hclean. reflexivity.
Qed.

End TextFacts.

(* ===================================================================== *)
(** * [CityService._postProcess]: properties *)
(* ===================================================================== *)

Section CityRecordFacts.

Import CityRecord.

Lemma orZero_id (x : Z) : orZero x = x.
Proof.
  unfold orZero. destruct (x =? 0) eqn:E; [|reflexivity].
  apply Z.eqb_eq in E. congruence.
Qed.

Lemma fixedTotal_sum (data : CityData) : fixedTotal data = expectedSum data.
Proof.
  unfold fixedTotal.
  destruct (average_monthly_cost_of_living data =? expectedSum data) eqn:E;
    [|reflexivity].
  apply Z.eqb_eq in E. exact E.
Qed.

Lemma small_rating (k : Z) :
  (k <? 1) || (5 <? k) = false ->
  k = 1 \/ k = 2 \/ k = 3 \/ k = 4 \/ k = 5.
Proof.
  rewrite orb_false_iff, !Z.ltb_ge. lia.
Qed.

Lemma normalRating_cases (city_rating : string) :
  city_rating <> "" ->
  normalRating city_rating
  = match parseInt10 city_rating with
    | Some k => if (k <? 1) || (5 <? k) then "3" else toText (JNumber k)
    | None => "3"
    end.
Proof.
  intros Hne. unfold normalRating. rewrite (name_truthy _ Hne). reflexivity.
Qed.

Lemma normalRating_digit (city_rating : string) :
  city_rating <> "" ->
  In (normalRating city_rating) ["1"; "2"; "3"; "4"; "5"].
Proof.
  intros Hne. rewrite (normalRating_cases _ Hne).
  destruct (parseInt10 city_rating) as [k|]; [|cbn; tauto].
  destruct ((k <? 1) || (5 <? k)) eqn:E; [cbn; tauto|].
  destruct (small_rating k E) as [->|[->|[->|[->| ->]]]]; cbn; tauto.
Qed.

Lemma normalRating_idempotent (city_rating : string) :
  normalRating (normalRating city_rating) = normalRating city_rating.
Proof.
  destruct (String.eqb city_rating "") eqn:E.
  - apply String.eqb_eq in E. subst. reflexivity.
  - apply String.eqb_neq in E. pose proof (normalRating_digit _ E) as Hin.
    cbn in Hin. decompose [or] Hin; try contradiction;
      match goal with H : _ = normalRating _ |- _ => rewrite <- H end;
      reflexivity.
Qed.

Lemma isClimate_In (c : string) : isClimate c = true -> In c climates.
Proof.
  unfold isClimate. intros H. apply existsb_exists in H as (x & Hin & Hx).
  apply String.eqb_eq in Hx. subst. exact Hin.
Qed.

Lemma checkedClimate_idempotent (climate : Nullable string) :
  checkedClimate (checkedClimate climate) = checkedClimate climate.
Proof.
  destruct climate as [| |c]; try reflexivity. cbn [checkedClimate].
  destruct (negb (String.eqb c "") && negb (isClimate c)) eqn:E;
    [reflexivity|].
  cbn [checkedClimate]. rewrite E. reflexivity.
Qed.

Lemma Qle_bool_false (x y : Q) : Qle_bool x y = false -> (y <= x)%Q.
Proof.
  intros H. apply Qlt_le_weak, Qnot_le_lt. intros Hle.
  apply Qle_bool_iff in Hle. congruence.
Qed.

Lemma clamp_finite (q : Q) :
  mathMax (Finite 0) (mathMin (Finite 100) (Finite q))
  = if Qle_bool 100 q then Finite 100
    else if Qle_bool 0 q then Finite q else Finite 0.
Proof.
  unfold mathMax, mathMin, numLe.
  destruct (Qle_bool 100 q); [reflexivity|].
  destruct (Qle_bool 0 q); reflexivity.
Qed.

Lemma clampedScore_idempotent (score : Nullable JsNumber) :
  clampedScore (clampedScore score) = clampedScore score.
Proof.
  destruct score as [| |[q| |]]; try reflexivity.
  unfold clampedScore. rewrite (clamp_finite q).
  destruct (Qle_bool 100 q) eqn:Hhigh; [reflexivity|].
  destruct (Qle_bool 0 q) eqn:Hlow; [|reflexivity].
  rewrite (clamp_finite q), Hhigh, Hlow. reflexivity.
Qed.

(** X8.  When each of the six cost components is at most 2^50 in
    absolute value, the monthly total after [_postProcess] is their sum,
    whatever total came in, and the components are untouched. *)
Theorem postProcess_total_is_sum (data : CityData) :
  safeCosts data = true ->
  average_monthly_cost_of_living (_postProcess data)
  = average_rent data + average_food_cost data + transportation data
    + utilities data + internet_and_subscriptions data + miscellaneous data
  /\ average_rent (_postProcess data) = average_rent data
  /\ average_food_cost (_postProcess data) = average_food_cost data
  /\ transportation (_postProcess data) = transportation data
  /\ utilities (_postProcess data) = utilities data
  /\ internet_and_subscriptions (_postProcess data)
     = internet_and_subscriptions data
  /\ miscellaneous (_postProcess data) = miscellaneous data.
Proof.
  intros _. split; [|repeat split].
  cbn [_postProcess average_monthly_cost_of_living].
  rewrite fixedTotal_sum. unfold expectedSum. rewrite !orZero_id. reflexivity.
Qed.

(** X9.  After [_postProcess] a rating that was not empty is one of "1"
    to "5"; for a rating in ASCII text it is the leading integer of the
    text when that lies in the range, and "3" otherwise; an empty rating
    stays empty.  A climate that is still a string is empty or one of the
    three climates. *)
Theorem postProcess_rating_and_climate (data : CityData) :
  (city_rating data = "" -> city_rating (_postProcess data) = "")
  /\ (city_rating data <> "" ->
      In (city_rating (_postProcess data)) ["1"; "2"; "3"; "4"; "5"])
  /\ (city_rating data <> "" -> isAscii (city_rating data) = true ->
      city_rating (_postProcess data)
      = match parseInt10 (city_rating data) with
        | Some k => if (k <? 1) || (5 <? k) then "3" else toText (JNumber k)
        | None => "3"
        end)
  /\ (forall c, climate (_postProcess data) = Value c ->
        c = "" \/ In c climates).
Proof.
  cbn [_postProcess city_rating climate]. split; [|split; [|split]].
  - intros ->. reflexivity.
  - intros Hne. exact (normalRating_digit _ Hne).
  - intros Hne _. exact (normalRating_cases _ Hne).
  - intros c. destruct (climate data) as [| |c0]; try discriminate.
    cbn [checkedClimate].
    destruct (String.eqb c0 "") eqn:Hempty; cbn [negb andb].
    + intros H. injection H as <-. left. apply String.eqb_eq, Hempty.
    + destruct (isClimate c0) eqn:Hc; cbn [negb]; [|discriminate].
      intros H. injection H as <-. right. exact (isClimate_In _ Hc).
Qed.

(** X10.  After [_postProcess] a happiness score that is a number is a
    finite one between 0 and 100: a score in that range keeps its value,
    a lower one becomes 0, a higher one 100.  A null or missing score
    stays as it is. *)
Theorem postProcess_score_in_range (data : CityData) :
  match student_happiness_score data with
  | Value before =>
      exists after,
        student_happiness_score (_postProcess data) = Value after
        /\ inRange after
        /\ (forall q, before = Finite q -> (0 <= q)%Q -> (q <= 100)%Q ->
              exists q', after = Finite q' /\ (q' == q)%Q)
  | absent => student_happiness_score (_postProcess data) = absent
  end.
Proof.
  cbn [_postProcess student_happiness_score].
  destruct (student_happiness_score data) as [| |[q| |]]; try reflexivity;
    unfold clampedScore.
  - rewrite (clamp_finite q). destruct (Qle_bool 100 q) eqn:Hhigh.
    + eexists. split; [reflexivity|]. split.
      * exists 100%Q. split; [reflexivity|]. split; discriminate.
      * intros q0 [= <-] Hlow Hle. exists 100%Q. split; [reflexivity|].
        apply Qle_bool_iff in Hhigh. apply Qle_antisym; assumption.
    + destruct (Qle_bool 0 q) eqn:Hlow.
      * eexists. split; [reflexivity|]. split.
        -- exists q. split; [reflexivity|]. split.
           ++ apply Qle_bool_iff, Hlow.
           ++ apply Qle_bool_false, Hhigh.
        -- intros q0 [= <-] _ _. exists q. split; [reflexivity|].
           apply Qeq_refl.
      * eexists. split; [reflexivity|]. split.
        -- exists 0%Q. split; [reflexivity|]. split; discriminate.
        -- intros q0 [= <-] Hge _. exists 0%Q. split; [reflexivity|].
           apply Qle_antisym; [exact Hge|apply Qle_bool_false, Hlow].
  - eexists. split; [reflexivity|]. split.
    + exists 100%Q. split; [reflexivity|]. split; discriminate.
    + intros q H. discriminate H.
  - eexists. split; [reflexivity|]. split.
    + exists 0%Q. split; [reflexivity|]. split; discriminate.
    + intros q H. discriminate H.
Qed.

(** X11.  [_postProcess] is idempotent: a record that went through it is
    left as it is by a second pass. *)
Theorem postProcess_idempotent (data : CityData) :
  _postProcess (_postProcess data) = _postProcess data.
Proof.
  unfold _postProcess at 1 3.
  cbn [city state country city_image city_rating climate
       average_monthly_cost_of_living average_rent average_food_cost
       transportation utilities internet_and_subscriptions miscellaneous
       currency average_part_time_job_pay student_happiness_score
       top_3_most_expensive_cities_in_region
       top_3_most_affordable_cities_in_region number_of_universities
       sources data_notes _postProcess].
  rewrite normalRating_idempotent, checkedClimate_idempotent,
    clampedScore_idempotent.
  rewrite (fixedTotal_sum (_postProcess data)), (fixedTotal_sum data).
  reflexivity.
Qed.

End CityRecordFacts.

(* ===================================================================== *)
(** * The controllers: properties *)
(* ===================================================================== *)

Section ControllerFacts.

Import Controller.

Context {Data : Type}.
Variable destructuringMessage : string.

Lemma notAString_false (v : JsVal) :
  notAString v = false -> exists s, v = JString s /\ s <> "".
Proof. unfold notAString. apply guard_rejects. Qed.

Lemma notAString_string (s : string) : s <> "" -> notAString (JString s) = false.
Proof.
  intros Hne. unfold notAString. cbn [truthy typeof].
  rewrite (name_truthy _ Hne). reflexivity.
Qed.

Lemma failure_status (label : string) (error : Thrown) :
  status (failure (Data := Data) label error) = 500%nat.
Proof.
  unfold failure. destruct error as [name message|]; [|reflexivity].
  destruct (String.eqb name "ZodError"); reflexivity.
Qed.

Lemma property_string (reqBody : JsVal) (key s : string) :
  property reqBody key = JString s -> exists fields, reqBody = JObject fields.
Proof. destruct reqBody; try discriminate. eauto. Qed.

(** X12.  [CityController.extract] answers 200, 400 or 500.  It answers
    200 exactly when the body's [city] and [country] are non-empty
    strings, the service call is fulfilled and the schema accepts the
    result, which is then the payload.  The service is consulted with
    non-empty strings only: two services that agree on those give the
    same response. *)
Theorem cityExtract_contract
    (extractCityData : string -> JsVal -> string -> Settled Data)
    (parse : Data -> Settled Data) (reqBody : JsVal) :
  let response :=
    cityExtract destructuringMessage extractCityData parse reqBody in
  (status response = 200%nat \/ status response = 400%nat
   \/ status response = 500%nat)
  /\ (status response = 200%nat <->
      exists city country cityData validatedData,
        property reqBody "city" = JString city /\ city <> ""
        /\ property reqBody "country" = JString country /\ country <> ""
        /\ extractCityData city (or_else (property reqBody "state") JNull)
             country = Fulfilled cityData
        /\ parse cityData = Fulfilled validatedData
        /\ body response = Payload validatedData)
  /\ (forall other : string -> JsVal -> string -> Settled Data,
        (forall city state country,
           city <> "" -> country <> "" ->
           other city state country = extractCityData city state country) ->
        cityExtract destructuringMessage other parse reqBody = response).
Proof.
  cbv zeta.
  assert (Hnull : forall svc,
            reqBody = JUndefined \/ reqBody = JNull ->
            cityExtract destructuringMessage svc parse reqBody
            = failure "City extraction failed"
                (ErrorObject "TypeError" destructuringMessage)).
  { intros svc [-> | ->]; reflexivity. }
  assert (Hobj : forall svc,
            reqBody <> JUndefined -> reqBody <> JNull ->
            cityExtract destructuringMessage svc parse reqBody
            = if notAString (property reqBody "city")
              then {| status := 400; body := ErrorOnly cityBodyError |}
              else if notAString (property reqBody "country")
              then {| status := 400; body := ErrorOnly countryError |}
              else
                match svc (toText (property reqBody "city"))
                        (or_else (property reqBody "state") JNull)
                        (toText (property reqBody "country")) with
                | Failed error => failure "City extraction failed" error
                | Fulfilled cityData =>
                    match parse cityData with
                    | Failed error => failure "City extraction failed" error
                    | Fulfilled validatedData =>
                        {| status := 200; body := Payload validatedData |}
                    end
                end).
  { intros svc H1 H2. destruct reqBody; try congruence; reflexivity. }
  assert (Hcases : reqBody = JUndefined \/ reqBody = JNull
                   \/ (reqBody <> JUndefined /\ reqBody <> JNull)).
  { destruct reqBody; auto; right; right; split; discriminate. }
  destruct Hcases as [Hn|[Hn|[H1 H2]]].
  1,2: rewrite !Hnull by auto; split; [rewrite failure_status; auto|];
       (split; [|intros other _; rewrite Hnull by auto; reflexivity]);
       rewrite failure_status; split; [discriminate|];
       intros (city & country & cd & vd & Hc & _);
       subst reqBody; discriminate Hc.
  rewrite (Hobj extractCityData H1 H2).
  destruct (notAString (property reqBody "city")) eqn:Hcity.
  { split; [auto|]. split.
    - split; [discriminate|].
      intros (city & country & cd & vd & Hc & Hne & _).
      rewrite Hc, (notAString_string _ Hne) in Hcity. discriminate.
    - intros other _. rewrite (Hobj other H1 H2). reflexivity. }
  destruct (notAString (property reqBody "country")) eqn:Hcountry.
  { split; [auto|]. split.
    - split; [discriminate|].
      intros (city & country & cd & vd & _ & _ & Hc & Hne & _).
      rewrite Hc, (notAString_string _ Hne) in Hcountry. discriminate.
    - intros other _. rewrite (Hobj other H1 H2). reflexivity. }
  destruct (notAString_false _ Hcity) as (city & Ecity & Hcne).
  destruct (notAString_false _ Hcountry) as (country & Ecountry & Hcone).
  rewrite Ecity, Ecountry. change (toText (JString ?s)) with s.
  split; [|split].
  - destruct (extractCityData city _ country) as [cd|e];
      [|rewrite failure_status; auto].
    destruct (parse cd) as [vd|e]; [auto|rewrite failure_status; auto].
  - split.
    + destruct (extractCityData city _ country) as [cd|e] eqn:Hsvc;
        [|rewrite failure_status; discriminate].
      destruct (parse cd) as [vd|e] eqn:Hparse;
        [|rewrite failure_status; discriminate].
      intros _. exists city, country, cd, vd. repeat split; auto.
    + intros (c & co & cd & vd & [= <-] & _ & [= <-] & _ & Hsvc & Hparse & _).
      rewrite Hsvc, Hparse. reflexivity.
  - intros other Hagree. rewrite (Hobj other H1 H2).
    rewrite Ecity, Ecountry. change (toText (JString ?s)) with s.
    rewrite (Hagree city _ country Hcne Hcone). reflexivity.
Qed.

(** X13.  [UniversityController.extract] answers 200, 400 or 500.  It
    answers 200 exactly when the body's [university] is a non-empty
    string, the service call is fulfilled and the schema accepts the
    result, which is then the payload.  The service is consulted with a
    non-empty string only. *)
Theorem universityExtract_contract
    (extractUniversityData : string -> Settled Data)
    (parse : Data -> Settled Data) (reqBody : JsVal) :
  let response :=
    universityExtract destructuringMessage extractUniversityData parse reqBody in
  (status response = 200%nat \/ status response = 400%nat
   \/ status response = 500%nat)
  /\ (status response = 200%nat <->
      exists university universityData validatedData,
        property reqBody "university" = JString university /\ university <> ""
        /\ extractUniversityData university = Fulfilled universityData
        /\ parse universityData = Fulfilled validatedData
        /\ body response = Payload validatedData)
  /\ (forall other : string -> Settled Data,
        (forall university,
           university <> "" -> other university = extractUniversityData university) ->
        universityExtract destructuringMessage other parse reqBody = response).
Proof.
  cbv zeta.
  assert (Hnull : forall svc,
            reqBody = JUndefined \/ reqBody = JNull ->
            universityExtract destructuringMessage svc parse reqBody
            = failure "Extraction failed"
                (ErrorObject "TypeError" destructuringMessage)).
  { intros svc [-> | ->]; reflexivity. }
  assert (Hobj : forall svc,
            reqBody <> JUndefined -> reqBody <> JNull ->
            universityExtract destructuringMessage svc parse reqBody
            = if notAString (property reqBody "university")
              then {| status := 400; body := ErrorOnly universityBodyError |}
              else
                match svc (toText (property reqBody "university")) with
                | Failed error => failure "Extraction failed" error
                | Fulfilled universityData =>
                    match parse universityData with
                    | Failed error => failure "Extraction failed" error
                    | Fulfilled validatedData =>
                        {| status := 200; body := Payload validatedData |}
                    end
                end).
  { intros svc H1 H2. destruct reqBody; try congruence; reflexivity. }
  assert (Hcases : reqBody = JUndefined \/ reqBody = JNull
                   \/ (reqBody <> JUndefined /\ reqBody <> JNull)).
  { destruct reqBody; auto; right; right; split; discriminate. }
  destruct Hcases as [Hn|[Hn|[H1 H2]]].
  1,2: rewrite !Hnull by auto; split; [rewrite failure_status; auto|];
       (split; [|intros other _; rewrite Hnull by auto; reflexivity]);
       rewrite failure_status; split; [discriminate|];
       intros (u & ud & vd & Hu & _);
       subst reqBody; discriminate Hu.
  rewrite (Hobj extractUniversityData H1 H2).
  destruct (notAString (property reqBody "university")) eqn:Huni.
  { split; [auto|]. split.
    - split; [discriminate|].
      intros (u & ud & vd & Hu & Hne & _).
      rewrite Hu, (notAString_string _ Hne) in Huni. discriminate.
    - intros other _. rewrite (Hobj other H1 H2). reflexivity. }
  destruct (notAString_false _ Huni) as (university & Euni & Hune).
  rewrite Euni. change (toText (JString ?s)) with s.
  split; [|split].
  - destruct (extractUniversityData university) as [ud|e];
      [|rewrite failure_status; auto].
    destruct (parse ud) as [vd|e]; [auto|rewrite failure_status; auto].
  - split.
    + destruct (extractUniversityData university) as [ud|e] eqn:Hsvc;
        [|rewrite failure_status; discriminate].
      destruct (parse ud) as [vd|e] eqn:Hparse;
        [|rewrite failure_status; discriminate].
      intros _. exists university, ud, vd. repeat split; auto.
    + intros (u & ud & vd & [= <-] & _ & Hsvc & Hparse & _).
      rewrite Hsvc, Hparse. reflexivity.
  - intros other Hagree. rewrite (Hobj other H1 H2), Euni.
    change (toText (JString ?s)) with s.
    rewrite (Hagree university Hune). reflexivity.
Qed.

End ControllerFacts.

(* ===================================================================== *)
(** * The image steps of the two services: properties *)
(* ===================================================================== *)

Section ImageSteps.

Context {World : Type}.
Variable search_api : string -> World -> SearchReply * World.
Variable head_api : string -> World -> HeadReply * World.

Lemma override_lookup (field : string) (found : option string)
    (validatedData : gmap string JsVal) :
  GeminiService.override field found validatedData !! field
  = Some (JString (default "" found)).
Proof.
  unfold GeminiService.override. destruct found as [url|];
    [|apply lookup_insert_eq].
  cbn [truthy]. destruct (String.eqb url "") eqn:E; cbn [negb].
  - apply String.eqb_eq in E. subst. apply lookup_insert_eq.
  - apply lookup_insert_eq.
Qed.

Lemma override_other (field other : string) (found : option string)
    (validatedData : gmap string JsVal) :
  other <> field ->
  GeminiService.override field found validatedData !! other
  = validatedData !! other.
Proof.
  intros Hne. unfold GeminiService.override.
  destruct found as [url|]; [destruct (truthy (JString url))|];
    apply lookup_insert_ne; congruence.
Qed.

(** X14.  With an image search service, the image step of
    [extractUniversityData] runs the university search and then the city
    search, and keeps neither of the model's own image URLs: each image
    field becomes the URL its search returned, or the empty string when
    the search returned none.  The other fields are left as they were. *)
Theorem gemini_images_from_search university city country
    (validatedData : gmap string JsVal) (w w1 w2 : World)
    universityImage cityImage t1 t2 :
  searchUniversityImage search_api head_api university w
    = (Ret universityImage, w1, t1) ->
  searchCityImage search_api head_api city country w1
    = (Ret cityImage, w2, t2) ->
  exists result,
    GeminiService.extractUniversityData_images search_api head_api true
      university city country validatedData w
    = (Ret result, w2, t1 ++ t2)
    /\ result !! "university_image" = Some (JString (default "" universityImage))
    /\ result !! "city_image" = Some (JString (default "" cityImage))
    /\ (forall field, field <> "university_image" -> field <> "city_image" ->
          result !! field = validatedData !! field).
Proof.
  intros Huni Hcity. eexists. split; [|split; [|split]].
  - unfold GeminiService.extractUniversityData_images, bind.
    rewrite Huni, Hcity. cbn. rewrite app_nil_r. reflexivity.
  - rewrite override_other by discriminate. apply override_lookup.
  - apply override_lookup.
  - intros field H1 H2. rewrite !override_other by assumption. reflexivity.
Qed.

(** One block of the fallback branch: the field becomes the empty
    string, unless the validator accepted the value it had. *)
Lemma validateField_run (field : string) (validatedData : gmap string JsVal)
    (w : World) :
  exists checked w' t,
    GeminiService.validateField head_api field validatedData w
    = (Ret checked, w', t)
    /\ forallb isHead t = true
    /\ (forall other, other <> field ->
          checked !! other = validatedData !! other)
    /\ (checked !! field = Some (JString "")
        \/ (checked !! field = validatedData !! field
            /\ exists url,
                 validatedData !! field = Some url
                 /\ GeminiService.validateImageUrl head_api url w
                    = (Ret true, w', t))).
Proof.
  unfold GeminiService.validateField.
  destruct (validatedData !! field) as [url|] eqn:Hfield;
    cbn [default from_option id truthy].
  2: { eexists _, w, []. split; [reflexivity|]. split; [reflexivity|].
       split; [intros other Hne; apply lookup_insert_ne; congruence|].
       left. apply lookup_insert_eq. }
  destruct (truthy url) eqn:Htruthy.
  2: { eexists _, w, []. split; [reflexivity|]. split; [reflexivity|].
       split; [intros other Hne; apply lookup_insert_ne; congruence|].
       left. apply lookup_insert_eq. }
  unfold bind, GeminiService.validateImageUrl.
  pose proof (isValidImageUrl_heads head_api url w) as Hh.
  destruct (isValidImageUrl_run head_api url w) as (b & w' & t & Hrun & _).
  rewrite Hrun in Hh |- *. cbn [snd] in Hh.
  destruct b; cbn; rewrite app_nil_r.
  - eexists _, w', t. split; [reflexivity|]. split; [exact Hh|].
    split; [reflexivity|]. right.
    split; [first [exact Hfield|reflexivity]|].
    exists url. split; [first [exact Hfield|reflexivity]|exact Hrun].
  - eexists _, w', t. split; [reflexivity|]. split; [exact Hh|].
    split; [intros other Hne; apply lookup_insert_ne; congruence|].
    left. apply lookup_insert_eq.
Qed.

(** X15.  Without an image search service, the image step of
    [extractUniversityData] issues no search and never raises.  Each of
    the two image fields ends as the empty string, unless it keeps the
    value it had and [validateImageUrl] accepted that value during the
    run.  The other fields are left as they were. *)
Theorem gemini_images_validated university city country
    (validatedData : gmap string JsVal) (w : World) :
  exists result w' t,
    GeminiService.extractUniversityData_images search_api head_api false
      university city country validatedData w
    = (Ret result, w', t)
    /\ searchQueries t = []
    /\ (forall field,
          field = "university_image" \/ field = "city_image" ->
          result !! field = Some (JString "")
          \/ (result !! field = validatedData !! field
              /\ exists url wa wb tc,
                   validatedData !! field = Some url
                   /\ GeminiService.validateImageUrl head_api url wa
                      = (Ret true, wb, tc)))
    /\ (forall field, field <> "university_image" -> field <> "city_image" ->
          result !! field = validatedData !! field).
Proof.
  unfold GeminiService.extractUniversityData_images, bind.
  destruct (validateField_run "university_image" validatedData w)
    as (d1 & w1 & t1 & -> & Hh1 & Hframe1 & Hfield1).
  destruct (validateField_run "city_image" d1 w1)
    as (d2 & w2 & t2 & -> & Hh2 & Hframe2 & Hfield2).
  exists d2, w2, (t1 ++ t2). split; [reflexivity|]. split; [|split].
  - rewrite searchQueries_app, (heads_no_queries _ Hh1),
      (heads_no_queries _ Hh2). reflexivity.
  - intros field [-> | ->].
    + rewrite (Hframe2 "university_image") by discriminate.
      destruct Hfield1 as [Hempty|[Hkept (url & Hurl & Hrun)]];
        [left; exact Hempty|].
      right. split; [exact Hkept|]. exists url, w, w1, t1. auto.
    + destruct Hfield2 as [Hempty|[Hkept (url & Hurl & Hrun)]];
        [left; exact Hempty|].
      right. rewrite (Hframe1 "city_image") in Hkept, Hurl by discriminate.
      split; [exact Hkept|]. exists url, w1, w2, t2. auto.
  - intros field H1 H2. rewrite (Hframe2 field H2). exact (Hframe1 field H1).
Qed.

(** X16.  With an image search service, the image step of
    [extractCityData] replaces [city_image] by the URL the city search
    returned; when the search returns none the record comes back as it
    was, with the model's own URL unchecked.  The other fields are left
    as they were in either case. *)
Theorem city_image_from_search city country
    (validatedData : gmap string JsVal) (w w' : World) cityImage t :
  searchCityImage search_api head_api city country w = (Ret cityImage, w', t) ->
  exists result,
    extractCityData_image search_api head_api true city country validatedData w
    = (Ret result, w', t)
    /\ (cityImage = None -> result = validatedData)
    /\ (forall url, cityImage = Some url -> url <> "" ->
          result !! "city_image" = Some (JString url))
    /\ (forall field, field <> "city_image" ->
          result !! field = validatedData !! field).
Proof.
  intros Hrun. unfold extractCityData_image, bind. rewrite Hrun.
  destruct cityImage as [url|].
  - cbn [truthy]. destruct (String.eqb url "") eqn:E; cbn [negb ret].
    + eexists. split; [rewrite app_nil_r; reflexivity|].
      split; [discriminate|]. split; [|reflexivity].
      intros u [= <-] Hne. apply String.eqb_eq in E. contradiction.
    + eexists. split; [rewrite app_nil_r; reflexivity|].
      split; [discriminate|]. split.
      * intros u [= <-] _. apply lookup_insert_eq.
      * intros field Hne. apply lookup_insert_ne. congruence.
  - eexists. split; [cbn; rewrite app_nil_r; reflexivity|].
    split; [reflexivity|]. split; [discriminate|reflexivity].
Qed.

End ImageSteps.

(* ===================================================================== *)
(** * The requests of a discovery run *)
(* ===================================================================== *)

Section RequestDiscipline.

Context {World : Type}.
Variable search_api : string -> World -> SearchReply * World.
Variable head_api : string -> World -> HeadReply * World.

Lemma evalItem_probes type name country item (w : World) url reply :
  In (EvHead url reply) (evalItem head_api type name country item w).2 ->
  exists candidate,
    item = Some candidate
    /\ filterStages type name country item = Ret (Survives url).
Proof.
  destruct (filterStages type name country item) as [[r|imageUrl]|e] eqn:Hf.
  - rewrite (evalItem_rejected _ _ _ _ _ _ w Hf). intros [].
  - destruct (isValidImageUrl_run head_api (JString imageUrl) w)
      as (b & w' & t & Hrun & Hall & _).
    rewrite (evalItem_survives _ _ _ _ _ _ w w' b t Hf Hrun). cbn [snd].
    intros Hin. rewrite List.Forall_forall in Hall.
    destruct (Hall _ Hin) as [r Hr]. injection Hr as -> _.
    destruct item as [candidate|]; [|discriminate Hf].
    exists candidate. split; reflexivity.
  - rewrite (evalItem_throws _ _ _ _ _ _ w Hf). intros [].
Qed.

Lemma forItems_probes type name country items (w : World) url reply :
  In (EvHead url reply) (forItems head_api type name country items w).2 ->
  exists candidate,
    In (Some candidate) items
    /\ filterStages type name country (Some candidate) = Ret (Survives url).
Proof.
  revert w. induction items as [|item rest IH]; intros w; [intros []|].
  rewrite forItems_cons.
  pose proof (evalItem_probes type name country item w url reply) as Hfirst.
  destruct (evalItem head_api type name country item w) as [[[[u|]|e] w1] t1];
    cbn [snd] in Hfirst |- *.
  - intros Hin. destruct (Hfirst Hin) as (candidate & -> & Hf).
    exists candidate. split; [left; reflexivity|exact Hf].
  - specialize (IH w1).
    destruct (forItems head_api type name country rest w1) as [[r w2] t2].
    cbn [snd] in IH |- *. intros Hin. apply in_app_or in Hin as [Hin|Hin].
    + destruct (Hfirst Hin) as (candidate & -> & Hf).
      exists candidate. split; [left; reflexivity|exact Hf].
    + destruct (IH Hin) as (candidate & Hc & Hf).
      exists candidate. split; [right; exact Hc|exact Hf].
  - intros Hin. destruct (Hfirst Hin) as (candidate & -> & Hf).
    exists candidate. split; [left; reflexivity|exact Hf].
Qed.

(** One turn of the strategy loop: the search request comes first, and
    every HEAD request after it is for a surviving candidate of the reply. *)
Lemma tryStrategy_probes type name country strategy (w : World) :
  exists step w' t,
    tryStrategy search_api head_api type name country strategy w
    = (Ret step, w',
       EvSearch (query strategy) (search_api (query strategy) w).1 :: t)
    /\ forallb isHead t = true
    /\ (forall url reply,
          In (EvHead url reply) t ->
          exists items candidate,
            (search_api (query strategy) w).1 = SearchData (ItemsArray items)
            /\ In (Some candidate) items
            /\ filterStages type name country (Some candidate)
               = Ret (Survives url)).
Proof.
  unfold tryStrategy, try_catch, bind, fetchItems.
  destruct (search_api (query strategy) w) as [reply w1]; cbn [fst].
  destruct reply as [|status| | |[|items|]];
    try (eexists _, _, _; split; [reflexivity|split; [reflexivity|intros ? ? []]]).
  destruct items as [|item rest];
    [eexists _, _, _; split; [reflexivity|split; [reflexivity|intros ? ? []]]|].
  pose proof (forItems_heads head_api type name country (item :: rest) w1) as Hh.
  pose proof (forItems_probes type name country (item :: rest) w1) as Hp.
  destruct (forItems head_api type name country (item :: rest) w1)
    as [[[step|e] w2] t2]; cbn [snd] in Hh, Hp.
  - eexists _, _, _; split; [reflexivity|split; [exact Hh|]].
    intros url reply Hin. destruct (Hp url reply Hin) as (candidate & Hc & Hf).
    exists (item :: rest), candidate. split; [reflexivity|split; assumption].
  - eexists _, _, _; split; [cbn; rewrite app_nil_r; reflexivity|split; [exact Hh|]].
    intros url reply Hin. destruct (Hp url reply Hin) as (candidate & Hc & Hf).
    exists (item :: rest), candidate. split; [reflexivity|split; assumption].
Qed.


(** X18.  The search requests of a run are the queries of an initial
    stretch of the strategies, each issued once and in the strategies'
    order; so a city or a university lookup issues at most five search
    requests. *)
Theorem executeStrategies_query_discipline strategies type name country
    (w : World) :
  (exists unused,
     map query strategies
     = searchQueries
         (executeStrategies search_api head_api strategies type name country w).2
       ++ unused)
  /\ (forall universityName,
        length (searchQueries
                  (searchUniversityImage search_api head_api universityName w).2)
        <= 5)%nat
  /\ (forall cityName,
        length (searchQueries
                  (searchCityImage search_api head_api cityName country w).2)
        <= 5)%nat.
Proof.
  assert (Hprefix : forall strategies type name country (w : World),
            exists unused,
              map query strategies
              = searchQueries
                  (executeStrategies search_api head_api strategies type name
                     country w).2 ++ unused).
  { clear. intros strategies type name country.
    induction strategies as [|strategy rest IH]; intros w.
    - exists []. reflexivity.
    - rewrite executeStrategies_cons.
      destruct (tryStrategy_probes type name country strategy w)
        as (step & w1 & t1 & -> & Hh & _).
      destruct step as [imageUrl|]; cbn [snd].
      + exists (map query rest).
        change (searchQueries (EvSearch ?q ?r :: ?t))
          with (q :: searchQueries t).
        rewrite (heads_no_queries _ Hh). reflexivity.
      + destruct (IH w1) as (unused & Hq).
        destruct (executeStrategies search_api head_api rest type name country w1)
          as [[r w2] t2]; cbn [snd] in Hq |- *.
        exists unused. rewrite <- app_comm_cons.
        change (searchQueries (EvSearch ?q ?r :: ?t))
          with (q :: searchQueries t).
        rewrite searchQueries_app, (heads_no_queries _ Hh).
        cbn [map app]. rewrite Hq. reflexivity. }
  assert (Hbound : forall strategies type name country (w : World),
            (length (searchQueries
                       (executeStrategies search_api head_api strategies type
                          name country w).2)
             <= length strategies)%nat).
  { intros ss ty n c w0. destruct (Hprefix ss ty n c w0) as (unused & Hq).
    rewrite <- (length_map query ss), Hq, length_app. lia. }
  split; [apply Hprefix|].
  split; intros entity.
  - exact (Hbound (universityStrategies entity) University entity "" w).
  - exact (Hbound (cityStrategies entity country) City entity country w).
Qed.

End RequestDiscipline.

(* ===================================================================== *)
(** * The two classifiers side by side *)
(* ===================================================================== *)

Section ClassifiersAgree.

Context {World : Type}.
Variable head_api : string -> World -> HeadReply * World.

Lemma cityImageExtensions_sub (lowerUrl : string) :
  existsb (fun ext => includes lowerUrl ext) cityImageExtensions = true ->
  existsb (fun ext => includes lowerUrl ext) imageExtensions = true.
Proof.
  cbn [existsb cityImageExtensions imageExtensions].
  rewrite !orb_true_iff. intuition auto.
Qed.

Lemma imageExtensions_svg (lowerUrl : string) :
  includes lowerUrl ".svg" = false ->
  existsb (fun ext => includes lowerUrl ext) imageExtensions
  = existsb (fun ext => includes lowerUrl ext) cityImageExtensions.
Proof.
  cbn [existsb cityImageExtensions imageExtensions]. intros ->.
  rewrite !orb_false_r.
  repeat (rewrite <- ?orb_assoc; f_equal).
Qed.

(** X19.  [CityService.validateImageUrl] and [isValidImageUrl] run alike,
    request for request, on every value but two kinds of URL: one that
    names ".svg" without naming a raster extension, and one without an
    extension that matches an image path or CDN pattern and whose first
    HEAD reply decides nothing. *)
Theorem validateImageUrl_agrees_with_isValidImageUrl (url : JsVal) (w : World) :
  let lowerUrl := toLowerCase (toText url) in
  (existsb (fun ext => includes lowerUrl ext) cityImageExtensions = true ->
   validateImageUrl head_api url w = isValidImageUrl head_api url w)
  /\ (includes lowerUrl ".svg" = false ->
      (existsb (fun p => includes lowerUrl p) imagePathPatterns
       || existsb (fun p => includes lowerUrl p) imageCdnPatterns) = false
      \/ probeOutcome (head_api (toText url) w).1 <> Continue ->
      validateImageUrl head_api url w = isValidImageUrl head_api url w).
Proof.
  cbv zeta. unfold validateImageUrl, isValidImageUrl.
  destruct (negb (truthy url) || negb (String.eqb (typeof url) "string"));
    [split; reflexivity|]. cbv zeta.
  split.
  - intros Hext. rewrite Hext, (cityImageExtensions_sub _ Hext). reflexivity.
  - intros Hsvg Hcase. rewrite (imageExtensions_svg _ Hsvg).
    destruct (existsb _ cityImageExtensions); [reflexivity|].
    destruct (existsb _ imagePathPatterns || existsb _ imageCdnPatterns).
    + destruct Hcase as [Hcase|Hcase]; [discriminate Hcase|].
      unfold bind. rewrite !probe_eq.
      destruct (probeOutcome (head_api (toText url) w).1) as [b|];
        [reflexivity|congruence].
    + unfold bind at 2. cbn [ret]. unfold bind. rewrite !probe_eq.
      destruct (probeOutcome (head_api (toText url) w).1); reflexivity.
Qed.

End ClassifiersAgree.

(* ===================================================================== *)
(** * Service failures, as the controllers report them *)
(* ===================================================================== *)

Section ServiceErrorFacts.

Import Controller ServiceErrors.

Context {Data : Type}.
Variable destructuringMessage : string.

Lemma failure_details (label error details : string) (thrown : Thrown) :
  body (failure (Data := Data) label thrown) = ErrorDetails error details ->
  exists name, thrown = ErrorObject name details /\ String.eqb name "ZodError" = true.
Proof.
  destruct thrown as [name message|]; cbn [failure]; [|discriminate].
  destruct (String.eqb name "ZodError") eqn:Hname; cbn [body]; [|discriminate].
  intros H. injection H as _ <-. exists name. split; [reflexivity|exact Hname].
Qed.

Lemma failure_rethrown (label prefix : string) (thrown : Thrown) :
  failure (Data := Data) label (rethrown prefix thrown)
  = {| status := 500;
       body := ErrorMessage label (prefix +:+ messageOf thrown) |}.
Proof. reflexivity. Qed.

(** X20.  A failure inside [extractCityData], a schema violation of the
    model's reply included, reaches the client as status 500 with the
    error "City extraction failed" and the message prefixed by the
    service; the body "Data validation failed" is sent only when the
    service call was fulfilled and the controller's own schema check
    raised a ZodError. *)
Theorem city_service_failure_report
    (run : string -> JsVal -> string -> Settled Data)
    (parse : Data -> Settled Data) (reqBody : JsVal) :
  let extractCityData := fun city state country =>
    guarded cityPrefix (run city state country) in
  let response :=
    cityExtract destructuringMessage extractCityData parse reqBody in
  (forall city country thrown,
     property reqBody "city" = JString city -> city <> "" ->
     property reqBody "country" = JString country -> country <> "" ->
     run city (or_else (property reqBody "state") JNull) country = Failed thrown ->
     response
     = {| status := 500;
          body := ErrorMessage "City extraction failed"
                    (cityPrefix +:+ messageOf thrown) |})
  /\ (forall error details,
        body response = ErrorDetails error details ->
        exists city state country cityData,
          run city state country = Fulfilled cityData
          /\ parse cityData = Failed (ErrorObject "ZodError" details)).
Proof.
  cbv zeta. split.
  - intros city country thrown Hcity Hc Hcountry Hk Hrun.
    unfold cityExtract. rewrite Hcity, Hcountry.
    rewrite (notAString_string city Hc), (notAString_string country Hk).
    cbn [toText]. rewrite Hrun. cbn [guarded].
    destruct reqBody; try reflexivity; discriminate Hcity.
  - intros error details.
    assert (Hnot : forall label message,
              body (failure (Data := Data) label (ErrorObject "TypeError" message))
              <> ErrorDetails error details) by (intros; discriminate).
    unfold cityExtract.
    destruct reqBody as [| |b|z|s|elems|fields];
      try (intros H; exfalso; exact (Hnot _ _ H));
      cbv zeta;
      match goal with
      | |- context [if notAString ?v then _ else _] =>
          destruct (notAString v); [discriminate|]
      end;
      match goal with
      | |- context [if notAString ?v then _ else _] =>
          destruct (notAString v); [discriminate|]
      end;
      match goal with
      | |- context [guarded cityPrefix (run ?c ?s ?k)] =>
          destruct (run c s k) as [cityData|thrown] eqn:Hrun; cbn [guarded]
      end;
      try (rewrite failure_rethrown; discriminate);
      (destruct (parse cityData) as [validatedData|thrown] eqn:Hparse;
       [discriminate|]);
      intros H; destruct (failure_details _ _ _ _ H) as (name & -> & Hname);
      apply String.eqb_eq in Hname; subst name;
      do 3 eexists; exists cityData; (split; [exact Hrun|exact Hparse]).
Qed.

(** X21.  A failure inside [extractUniversityData], a schema violation
    of the model's reply included, reaches the client as status 500 with
    the error "Extraction failed" and the message prefixed by the service;
    the body "Data validation failed" is sent only when the service call
    was fulfilled and the controller's own schema check raised a
    ZodError. *)
Theorem university_service_failure_report
    (run : string -> Settled Data)
    (parse : Data -> Settled Data) (reqBody : JsVal) :
  let extractUniversityData := fun university =>
    guarded geminiPrefix (run university) in
  let response :=
    universityExtract destructuringMessage extractUniversityData parse reqBody in
  (forall university thrown,
     property reqBody "university" = JString university -> university <> "" ->
     run university = Failed thrown ->
     response
     = {| status := 500;
          body := ErrorMessage "Extraction failed"
                    (geminiPrefix +:+ messageOf thrown) |})
  /\ (forall error details,
        body response = ErrorDetails error details ->
        exists university universityData,
          run university = Fulfilled universityData
          /\ parse universityData = Failed (ErrorObject "ZodError" details)).
Proof.
  cbv zeta. split.
  - intros university thrown Huni Hne Hrun.
    unfold universityExtract. rewrite Huni, (notAString_string university Hne).
    cbn [toText]. rewrite Hrun. cbn [guarded].
    destruct reqBody; try reflexivity; discriminate Huni.
  - intros error details.
    assert (Hnot : forall label message,
              body (failure (Data := Data) label (ErrorObject "TypeError" message))
              <> ErrorDetails error details) by (intros; discriminate).
    unfold universityExtract.
    destruct reqBody as [| |b|z|s|elems|fields];
      try (intros H; exfalso; exact (Hnot _ _ H));
      cbv zeta;
      match goal with
      | |- context [if notAString ?v then _ else _] =>
          destruct (notAString v); [discriminate|]
      end;
      match goal with
      | |- context [guarded geminiPrefix (run ?u)] =>
          destruct (run u) as [universityData|thrown] eqn:Hrun; cbn [guarded]
      end;
      try (rewrite failure_rethrown; discriminate);
      (destruct (parse universityData) as [validatedData|thrown] eqn:Hparse;
       [discriminate|]);
      intros H; destruct (failure_details _ _ _ _ H) as (name & -> & Hname);
      apply String.eqb_eq in Hname; subst name;
      eexists; exists universityData; (split; [exact Hrun|exact Hparse]).
Qed.

End ServiceErrorFacts.

(* ===================================================================== *)
(** * The further theorems at concrete inputs *)
(* ===================================================================== *)



Lemma isValidImageUrl_accepts_only_images_witness :
  isValidImageUrl Scenario.jpegServer (JString Cases.heroUrl) 0%nat
  = (Ret true, 1%nat, [EvHead Cases.heroUrl (HeadResponse (Some "image/jpeg"))])
  /\ exists s,
       JString Cases.heroUrl = JString s /\ s <> ""
       /\ ((existsb (fun ext => includes (toLowerCase s) ext) imageExtensions = true
            /\ endsWith (toLowerCase s) ".svg" = false
            /\ [EvHead Cases.heroUrl (HeadResponse (Some "image/jpeg"))] = []
            /\ 1%nat = 0%nat)
           \/ (existsb (fun ext => includes (toLowerCase s) ext) imageExtensions
               = false
               /\ exists earlier contentType,
                    [EvHead Cases.heroUrl (HeadResponse (Some "image/jpeg"))]
                    = earlier ++ [EvHead s (HeadResponse (Some contentType))]
                    /\ startsWith contentType "image/" = true)).
Proof.
  assert (Hrun : isValidImageUrl Scenario.jpegServer (JString Cases.heroUrl) 0%nat
                 = (Ret true, 1%nat,
                    [EvHead Cases.heroUrl (HeadResponse (Some "image/jpeg"))]))
    by (vm_compute; reflexivity).
  split; [exact Hrun|].
  exact (isValidImageUrl_accepts_only_images Scenario.jpegServer _ _ _ _ Hrun).
Defined.

Lemma isValidImageUrl_request_bound_witness :
  length (isValidImageUrl Cases.plainText (JString Cases.heroUrl) 0%nat).2
  = 2%nat
  /\ (existsb (fun p => includes (toLowerCase Cases.heroUrl) p) imagePathPatterns
      || existsb (fun p => includes (toLowerCase Cases.heroUrl) p) imageCdnPatterns)
     = true
  /\ probeOutcome (Cases.plainText Cases.heroUrl 0%nat).1 = Continue.
Proof.
  assert (Hlen : length (isValidImageUrl Cases.plainText
                           (JString Cases.heroUrl) 0%nat).2 = 2%nat)
    by (vm_compute; reflexivity).
  split; [exact Hlen|].
  exact (proj2 (proj2 (isValidImageUrl_request_bound Cases.plainText
                         (JString Cases.heroUrl) 0%nat)) Hlen).
Defined.

Lemma validateImageUrl_accepts_only_images_witness :
  validateImageUrl Scenario.jpegServer (JString Cases.heroUrl) 0%nat
  = (Ret true, 1%nat, [EvHead Cases.heroUrl (HeadResponse (Some "image/jpeg"))])
  /\ exists s,
       JString Cases.heroUrl = JString s /\ s <> ""
       /\ ((existsb (fun ext => includes (toLowerCase s) ext) cityImageExtensions
            = true
            /\ endsWith (toLowerCase s) ".svg" = false
            /\ [EvHead Cases.heroUrl (HeadResponse (Some "image/jpeg"))] = []
            /\ 1%nat = 0%nat)
           \/ (exists contentType,
                 Scenario.jpegServer s 0%nat
                 = (HeadResponse (Some contentType), 1%nat)
                 /\ [EvHead Cases.heroUrl (HeadResponse (Some "image/jpeg"))]
                    = [EvHead s (HeadResponse (Some contentType))]
                 /\ startsWith contentType "image/" = true)).
Proof.
  assert (Hrun : validateImageUrl Scenario.jpegServer (JString Cases.heroUrl) 0%nat
                 = (Ret true, 1%nat,
                    [EvHead Cases.heroUrl (HeadResponse (Some "image/jpeg"))]))
    by (vm_compute; reflexivity).
  split; [exact Hrun|].
  exact (proj2 (validateImageUrl_accepts_only_images Scenario.jpegServer
                  (JString Cases.heroUrl) 0%nat) _ _ Hrun).
Defined.

Lemma jsonText_fences_witness :
  includes (Cases.prose +:+ Text.fence +:+ Cases.payload +:+ Text.fence)
    Text.fence = true
  /\ exists cleaned,
       Text.jsonText (Cases.prose +:+ Text.fence +:+ Cases.payload +:+ Text.fence)
       = Ret cleaned
       /\ includes cleaned Text.fence = false.
Proof.
  assert (Hfence : includes (Cases.prose +:+ Text.fence +:+ Cases.payload
                             +:+ Text.fence) Text.fence = true)
    by (vm_compute; reflexivity).
  split; [exact Hfence|].
  destruct (jsonText_fences (Cases.prose +:+ Text.fence +:+ Cases.payload
                             +:+ Text.fence)) as (cleaned & Hrun & _ & Hfree).
  exists cleaned. split; [exact Hrun|exact (Hfree Hfence)].
Defined.

Lemma jsonText_round_trip_witness :
  Text.asciiEnds (Text.trim Cases.payload) = true
  /\ includes Cases.prose "`" = false
  /\ includes Cases.payload "`" = false
  /\ includes Cases.closing "`" = false
  /\ Text.jsonText (Cases.prose +:+ Text.jsonFence +:+ Cases.payload
                    +:+ Text.fence +:+ Cases.closing)
     = Ret (Text.trim Cases.payload).
Proof.
  assert (H1 : includes Cases.prose "`" = false) by (vm_compute; reflexivity).
  assert (H2 : includes Cases.payload "`" = false) by (vm_compute; reflexivity).
  assert (H3 : includes Cases.closing "`" = false) by (vm_compute; reflexivity).
  split; [reflexivity|].
  split; [exact H1|]. split; [exact H2|]. split; [exact H3|].
  exact (jsonText_round_trip Cases.prose Cases.payload Cases.closing
           eq_refl H1 H2 H3).
Defined.

Lemma postProcess_rating_and_climate_witness :
  CityRecord.city_rating Cases.rawCity <> ""
  /\ isAscii (CityRecord.city_rating Cases.rawCity) = true
  /\ CityRecord.city_rating (CityRecord._postProcess Cases.rawCity)
     = match CityRecord.parseInt10 (CityRecord.city_rating Cases.rawCity) with
       | Some k => if (k <? 1) || (5 <? k) then "3" else toText (JNumber k)
       | None => "3"
       end.
Proof.
  assert (Hne : CityRecord.city_rating Cases.rawCity <> "") by discriminate.
  split; [exact Hne|]. split; [reflexivity|].
  exact (proj1 (proj2 (proj2 (postProcess_rating_and_climate Cases.rawCity)))
           Hne eq_refl).
Defined.

Lemma postProcess_score_in_range_witness :
  CityRecord.student_happiness_score Cases.rawCity
  = CityRecord.Value (CityRecord.Finite 120)
  /\ exists after,
       CityRecord.student_happiness_score (CityRecord._postProcess Cases.rawCity)
       = CityRecord.Value after
       /\ CityRecord.inRange after.
Proof.
  split; [reflexivity|].
  pose proof (postProcess_score_in_range Cases.rawCity) as H.
  change (CityRecord.student_happiness_score Cases.rawCity)
    with (CityRecord.Value (CityRecord.Finite 120)) in H.
  destruct H as (after & Hafter & Hrange & _).
  exists after. split; [exact Hafter|exact Hrange].
Defined.

Lemma cityExtract_contract_witness :
  (exists city country cityData validatedData,
     Controller.property Cases.cityRequest "city" = JString city /\ city <> ""
     /\ Controller.property Cases.cityRequest "country" = JString country
     /\ country <> ""
     /\ Cases.echoCity city
          (or_else (Controller.property Cases.cityRequest "state") JNull) country
        = Controller.Fulfilled cityData
     /\ Cases.accept cityData = Controller.Fulfilled validatedData
     /\ Controller.body
          (Controller.cityExtract "body is undefined" Cases.echoCity Cases.accept
             Cases.cityRequest)
        = Controller.Payload validatedData)
  /\ Controller.status
       (Controller.cityExtract "body is undefined" Cases.echoCity Cases.accept
          Cases.cityRequest)
     = 200%nat.
Proof.
  assert (H : exists city country cityData validatedData,
     Controller.property Cases.cityRequest "city" = JString city /\ city <> ""
     /\ Controller.property Cases.cityRequest "country" = JString country
     /\ country <> ""
     /\ Cases.echoCity city
          (or_else (Controller.property Cases.cityRequest "state") JNull) country
        = Controller.Fulfilled cityData
     /\ Cases.accept cityData = Controller.Fulfilled validatedData
     /\ Controller.body
          (Controller.cityExtract "body is undefined" Cases.echoCity Cases.accept
             Cases.cityRequest)
        = Controller.Payload validatedData).
  { exists "Lagos", "Nigeria", "Lagos, Nigeria", "Lagos, Nigeria".
    split; [reflexivity|]. split; [discriminate|]. split; [reflexivity|].
    split; [discriminate|]. split; [reflexivity|]. split; reflexivity. }
  split; [exact H|].
  exact (proj2 (proj1 (proj2 (cityExtract_contract "body is undefined"
                                Cases.echoCity Cases.accept Cases.cityRequest)))
           H).
Defined.

Lemma universityExtract_contract_witness :
  (exists university universityData validatedData,
     Controller.property Cases.universityRequest "university" = JString university
     /\ university <> ""
     /\ Cases.echoUniversity university = Controller.Fulfilled universityData
     /\ Cases.accept universityData = Controller.Fulfilled validatedData
     /\ Controller.body
          (Controller.universityExtract "body is undefined" Cases.echoUniversity
             Cases.accept Cases.universityRequest)
        = Controller.Payload validatedData)
  /\ Controller.status
       (Controller.universityExtract "body is undefined" Cases.echoUniversity
          Cases.accept Cases.universityRequest)
     = 200%nat.
Proof.
  assert (H : exists university universityData validatedData,
     Controller.property Cases.universityRequest "university" = JString university
     /\ university <> ""
     /\ Cases.echoUniversity university = Controller.Fulfilled universityData
     /\ Cases.accept universityData = Controller.Fulfilled validatedData
     /\ Controller.body
          (Controller.universityExtract "body is undefined" Cases.echoUniversity
             Cases.accept Cases.universityRequest)
        = Controller.Payload validatedData).
  { exists "MIT", "MIT", "MIT".
    split; [reflexivity|]. split; [discriminate|]. split; [reflexivity|].
    split; reflexivity. }
  split; [exact H|].
  exact (proj2 (proj1 (proj2 (universityExtract_contract "body is undefined"
                                Cases.echoUniversity Cases.accept
                                Cases.universityRequest))) H).
Defined.

Lemma gemini_images_from_search_witness :
  searchUniversityImage Scenario.mitProvider Scenario.unreachable "MIT" 0%nat
    = (Ret None, 5%nat,
       (searchUniversityImage Scenario.mitProvider Scenario.unreachable
          "MIT" 0%nat).2)
  /\ (searchCityImage Scenario.mitProvider Scenario.unreachable
        "Example City" "Canada" 5%nat).1
     = (Ret None, 10%nat)
  /\ exists result w' t,
       GeminiService.extractUniversityData_images Scenario.mitProvider
         Scenario.unreachable true "MIT" "Example City" "Canada"
         Scenario.record 0%nat
       = (Ret result, w', t)
       /\ result !! "university_image" = Some (JString "")
       /\ result !! "city_image" = Some (JString "")
       /\ result !! "city" = Scenario.record !! "city".
Proof.
  assert (H1 : searchUniversityImage Scenario.mitProvider Scenario.unreachable
                 "MIT" 0%nat
               = (Ret None, 5%nat,
                  (searchUniversityImage Scenario.mitProvider
                     Scenario.unreachable "MIT" 0%nat).2))
    by (vm_compute; reflexivity).
  assert (H2 : searchCityImage Scenario.mitProvider Scenario.unreachable
                 "Example City" "Canada" 5%nat
               = (Ret None, 10%nat,
                  (searchCityImage Scenario.mitProvider Scenario.unreachable
                     "Example City" "Canada" 5%nat).2))
    by (vm_compute; reflexivity).
  split; [exact H1|]. split; [rewrite H2; reflexivity|].
  destruct (gemini_images_from_search Scenario.mitProvider Scenario.unreachable
              "MIT" "Example City" "Canada" Scenario.record
              _ _ _ _ _ _ _ H1 H2) as (result & Hrun & Hu & Hc & Hframe).
  exists result. eexists _, _. split; [exact Hrun|]. split; [exact Hu|].
  split; [exact Hc|]. apply Hframe; discriminate.
Defined.

Lemma gemini_images_validated_witness :
  exists result w' t,
    GeminiService.extractUniversityData_images Scenario.down Scenario.htmlPage
      false "MIT" "Example City" "Canada" Scenario.record 0%nat
    = (Ret result, w', t)
    /\ searchQueries t = []
    /\ result !! "city" = Scenario.record !! "city".
Proof.
  destruct (gemini_images_validated Scenario.down Scenario.htmlPage
              "MIT" "Example City" "Canada" Scenario.record 0%nat)
    as (result & w' & t & Hrun & Hq & _ & Hframe).
  exists result, w', t. split; [exact Hrun|]. split; [exact Hq|].
  apply Hframe; discriminate.
Defined.

Lemma city_image_from_search_witness :
  (searchCityImage Scenario.down Scenario.unreachable
     "Example City" "Canada" 0%nat).1
  = (Ret None, 5%nat)
  /\ (extractCityData_image Scenario.down Scenario.unreachable true
        "Example City" "Canada" Scenario.record 0%nat).1
     = (Ret Scenario.record, 5%nat).
Proof.
  assert (H : searchCityImage Scenario.down Scenario.unreachable
                "Example City" "Canada" 0%nat
              = (Ret None, 5%nat,
                 (searchCityImage Scenario.down Scenario.unreachable
                    "Example City" "Canada" 0%nat).2))
    by (vm_compute; reflexivity).
  split; [rewrite H; reflexivity|].
  destruct (city_image_from_search Scenario.down Scenario.unreachable
              "Example City" "Canada" Scenario.record _ _ _ _ H)
    as (result & Hrun & Hnone & _).
  rewrite Hrun, (Hnone eq_refl). reflexivity.
Defined.


Lemma validateImageUrl_agrees_with_isValidImageUrl_witness :
  includes (toLowerCase Cases.heroUrl) ".svg" = false
  /\ probeOutcome (Scenario.jpegServer Cases.heroUrl 0%nat).1 <> Continue
  /\ validateImageUrl Scenario.jpegServer (JString Cases.heroUrl) 0%nat
     = isValidImageUrl Scenario.jpegServer (JString Cases.heroUrl) 0%nat.
Proof.
  assert (Hsvg : includes (toLowerCase Cases.heroUrl) ".svg" = false)
    by (vm_compute; reflexivity).
  assert (Hdecided : probeOutcome (Scenario.jpegServer Cases.heroUrl 0%nat).1
                     <> Continue) by (vm_compute; discriminate).
  split; [exact Hsvg|]. split; [exact Hdecided|].
  exact (proj2 (validateImageUrl_agrees_with_isValidImageUrl Scenario.jpegServer
                  (JString Cases.heroUrl) 0%nat) Hsvg (or_intror Hdecided)).
Defined.

Lemma city_service_failure_report_witness :
  Controller.property Cases.cityRequest "city" = JString "Lagos"
  /\ Controller.property Cases.cityRequest "country" = JString "Nigeria"
  /\ Controller.cityExtract "body is undefined"
       (fun city state country =>
          ServiceErrors.guarded ServiceErrors.cityPrefix
            (Cases.rejectedReply city state country))
       Cases.accept Cases.cityRequest
     = {| Controller.status := 500;
          Controller.body :=
            Controller.ErrorMessage "City extraction failed"
              (ServiceErrors.cityPrefix +:+ "city_rating: Required") |}.
Proof.
  assert (Hcity : Controller.property Cases.cityRequest "city" = JString "Lagos")
    by reflexivity.
  assert (Hcountry : Controller.property Cases.cityRequest "country"
                     = JString "Nigeria") by reflexivity.
  split; [exact Hcity|]. split; [exact Hcountry|].
  refine (proj1 (city_service_failure_report "body is undefined"
                   Cases.rejectedReply Cases.accept Cases.cityRequest)
            "Lagos" "Nigeria"
            (Controller.ErrorObject "ZodError" "city_rating: Required")
            Hcity _ Hcountry _ _); [discriminate|discriminate|reflexivity].
Defined.

Lemma university_service_failure_report_witness :
  Controller.property Cases.universityRequest "university" = JString "MIT"
  /\ Controller.universityExtract "body is undefined"
       (fun university =>
          ServiceErrors.guarded ServiceErrors.geminiPrefix
            (Cases.rejectedProfile university))
       Cases.accept Cases.universityRequest
     = {| Controller.status := 500;
          Controller.body :=
            Controller.ErrorMessage "Extraction failed"
              (ServiceErrors.geminiPrefix +:+ "university: Required") |}.
Proof.
  assert (Huni : Controller.property Cases.universityRequest "university"
                 = JString "MIT") by reflexivity.
  split; [exact Huni|].
  refine (proj1 (university_service_failure_report "body is undefined"
                   Cases.rejectedProfile Cases.accept Cases.universityRequest)
            "MIT" (Controller.ErrorObject "ZodError" "university: Required")
            Huni _ _); [discriminate|reflexivity].
Defined.

Lemma postProcess_total_is_sum_witness :
  CityRecord.safeCosts Cases.rawCity = true
  /\ CityRecord.average_monthly_cost_of_living
       (CityRecord._postProcess Cases.rawCity) = 1670.
Proof.
  split; [reflexivity|].
  exact (proj1 (postProcess_total_is_sum Cases.rawCity eq_refl)).
Defined.
